(** * The instance interfaces extension (os-attach-interfaces, v3 API)

    A shallow embedding of
    [api/openstack/compute/plugins/v3/attach_interfaces.py]: the
    [InterfaceAttachmentController] and the view translation it uses.

    The controller is a thin adapter: it authorizes the call, reads a JSON
    body, calls the compute and the network API, and turns their exceptions
    into webob HTTP errors.  The embedding keeps that shape:

    - Python values are an inductive type [pyval]; dictionaries are [gmap]s
      with string keys, subscripting and [.get] are fallible functions;
    - exceptions are objects with a class and a message, [except] clauses
      test [isinstance] along the class's ancestors;
    - the controller's methods are programs [prog A]: trees whose nodes are
      the calls to the collaborators (authorization gate, compute API,
      network API) and the log records, with [Raise] and [try_] for
      exceptions;
    - [run] executes a program against an arbitrary backend (a state type
      and a function answering every call) and yields the outcome, the
      trace of calls and log records in order, and the final state. *)

From Stdlib Require Import ZArith.
From stdpp Require Import gmap strings list fin_maps.

#[local] Set Warnings "-register-all".
#[local] Open Scope Z_scope.
#[local] Open Scope string_scope.

(** ** Python values *)

(** The values the controller handles are what a JSON body deserializes to
    and what the collaborators return: [None], booleans, integers, strings,
    lists and dictionaries with string keys. *)
Inductive pyval : Type :=
  | PNone
  | PBool (b : bool)
  | PInt (z : Z)
  | PStr (s : string)
  | PList (l : list pyval)
  | PDict (d : gmap string pyval).

(** ** Exceptions *)

(** The exception classes the module names or can meet: those of
    [nova.exception], the builtins, and the [webob.exc] HTTP errors. *)
Inductive exn_class : Type :=
  | Exception
  | LookupError | KeyError | IndexError | TypeError | AttributeError
  | NotImplementedError
  | NovaException | NotFound | InstanceNotFound | PortNotFound
  | Invalid | InterfaceAttachFailed | Forbidden
  | HTTPException | HTTPBadRequest | HTTPNotFound
  | HTTPInternalServerError | HTTPNotImplemented.

#[global] Instance exn_class_eq_dec : EqDecision exn_class.
Proof. solve_decision. Defined.

(** An exception object: its class and its message, that is the first of
    its [args] when it has any (for a [webob.exc] error, the [explanation]
    it was built with).  An exception of [nova.exception] reaches the
    controller with its text in [args[0]]: the one it was raised with, or
    the default text of its class when it was raised with none. *)
Record exn : Type := exc { class_of : exn_class; message : option string }.

(** Modelled from the spec: the class hierarchy of [nova.exception] is not
    part of this module; section 7 of the specification groups "instance
    absent" and "port absent" under NotFound, and the attach failure is an
    invalid-request error.  Each class is listed with all its ancestors
    (builtin and [webob.exc] classes as Python and webob define them). *)
Definition mro (c : exn_class) : list exn_class :=
  match c with
  | Exception => [Exception]
  | LookupError => [LookupError; Exception]
  | KeyError => [KeyError; LookupError; Exception]
  | IndexError => [IndexError; LookupError; Exception]
  | TypeError => [TypeError; Exception]
  | AttributeError => [AttributeError; Exception]
  | NotImplementedError => [NotImplementedError; Exception]
  | NovaException => [NovaException; Exception]
  | NotFound => [NotFound; NovaException; Exception]
  | InstanceNotFound => [InstanceNotFound; NotFound; NovaException; Exception]
  | PortNotFound => [PortNotFound; NotFound; NovaException; Exception]
  | Invalid => [Invalid; NovaException; Exception]
  | InterfaceAttachFailed =>
      [InterfaceAttachFailed; Invalid; NovaException; Exception]
  | Forbidden => [Forbidden; NovaException; Exception]
  | HTTPException => [HTTPException; Exception]
  | HTTPBadRequest => [HTTPBadRequest; HTTPException; Exception]
  | HTTPNotFound => [HTTPNotFound; HTTPException; Exception]
  | HTTPInternalServerError =>
      [HTTPInternalServerError; HTTPException; Exception]
  | HTTPNotImplemented => [HTTPNotImplemented; HTTPException; Exception]
  end.

(** [isinstance e c]: what an [except c] clause tests. *)
Definition isinstance (e : exn) (c : exn_class) : bool :=
  bool_decide (c ∈ mro (class_of e)).

(** The result of evaluating a Python expression: a value or a raised
    exception. *)
Inductive outcome (A : Type) : Type :=
  | Val (a : A)
  | Exc (e : exn).
Arguments Val {A} a.
Arguments Exc {A} e.

#[global] Instance outcome_ret : MRet outcome := fun A a => Val a.
#[global] Instance outcome_bind : MBind outcome := fun A B f o =>
  match o with
  | Val a => f a
  | Exc e => Exc e
  end.

(** Modelled from the spec: [format_message] is a method of
    [NovaException], in [nova.exception], which is not among the sources;
    the controller hands its result to the caller as the explanation of
    the HTTP error (sections 4.1 and 7 of the specification).  The method
    is [return self.args[0]]: the text the exception carries (an object
    with empty [args], which [NovaException]'s constructor never makes,
    has no element 0).  The builtin exceptions (and [webob.exc]'s) have no
    such attribute: the lookup raises [AttributeError]. *)
Definition format_message (e : exn) : outcome string :=
  if isinstance e NovaException
  then match message e with
       | Some m => Val m
       | None => Exc (exc IndexError None)
       end
  else Exc (exc AttributeError (Some "format_message")).

(** ** Operations on Python values *)

(** Truth value testing, as [if v:] and [and] / [not] do it. *)
Definition truthy (v : pyval) : bool :=
  match v with
  | PNone => false
  | PBool b => b
  | PInt z => negb (z =? 0)%Z
  | PStr s => negb (String.eqb s "")
  | PList l => match l with [] => false | _ :: _ => true end
  | PDict d => match map_to_list d with [] => false | _ :: _ => true end
  end.

(** [v[k]] for a string key [k]. *)
Definition getitem (v : pyval) (k : string) : outcome pyval :=
  match v with
  | PDict d =>
      match d !! k with
      | Some x => Val x
      | None => Exc (exc KeyError (Some k))
      end
  | _ => Exc (exc TypeError None)
  end.

(** [v[i]] for an integer index [i] (negative indices count from the
    end).  A dictionary here has string keys only, so an integer key is
    never found. *)
Definition getindex (v : pyval) (i : Z) : outcome pyval :=
  match v with
  | PList l =>
      let j := if (i <? 0)%Z then i + Z.of_nat (length l) else i in
      if (j <? 0)%Z then Exc (exc IndexError None)
      else match l !! Z.to_nat j with
           | Some x => Val x
           | None => Exc (exc IndexError None)
           end
  | PStr s =>
      let j := if (i <? 0)%Z then i + Z.of_nat (String.length s) else i in
      if (j <? 0)%Z then Exc (exc IndexError None)
      else match String.get (Z.to_nat j) s with
           | Some c => Val (PStr (String c EmptyString))
           | None => Exc (exc IndexError None)
           end
  | PDict _ => Exc (exc KeyError None)
  | _ => Exc (exc TypeError None)
  end.

(** [v.get(k, dflt)]: only dictionaries have the method. *)
Definition get (v : pyval) (k : string) (dflt : pyval) : outcome pyval :=
  match v with
  | PDict d => Val (default dflt (d !! k))
  | _ => Exc (exc AttributeError (Some "get"))
  end.

(** [v != s] for a string [s]: among the values above only the same string
    compares equal to a string. *)
Definition ne_str (v : pyval) (s : string) : bool :=
  match v with
  | PStr s' => negb (String.eqb s' s)
  | _ => true
  end.

(** The elements a [for] visits. *)
Definition iter (v : pyval) : outcome (list pyval) :=
  match v with
  | PList l => Val l
  | PDict d => Val ((fun kv => PStr kv.1) <$> map_to_list d)
  | PStr s =>
      Val ((fun c => PStr (String c EmptyString))
             <$> String.list_ascii_of_string s)
  | _ => Exc (exc TypeError None)
  end.

(** A list comprehension [[f x for x in l]]: the first exception aborts
    it. *)
Fixpoint comprehension {A B} (f : A -> outcome B) (l : list A)
  : outcome (list B) :=
  match l with
  | [] => Val []
  | x :: l' =>
      y ← f x;
      ys ← comprehension f l';
      Val (y :: ys)
  end.

(** ** Programs over the collaborators *)

(** The calls the module makes to the surrounding platform: the
    authorization gate [authorize] (the extension authorizer for
    [compute:v3:os-attach-interfaces]), [self.compute_api] and
    [self.network_api]. *)
Inductive call : Type :=
  | authorize (context : pyval)
  | compute_api_get (context : pyval) (instance_id : string)
  | compute_api_attach_interface
      (context instance network_id port_id requested_ip : pyval)
  | compute_api_detach_interface (context instance port_id : pyval)
  | network_api_show_port (context port_id : pyval)
  | network_api_list_ports (context : pyval) (search_opts : gmap string pyval).

(** The records written to [LOG]. *)
Inductive log_record : Type :=
  | LOG_audit (msg : string) (args : list pyval) (instance : pyval)
  | LOG_exception (e : exn).

Inductive event : Type :=
  | Called (c : call)
  | Logged (l : log_record).

(** A method body: it returns, raises, calls a collaborator and goes on
    with what the call returned or raised, or writes a log record. *)
Inductive prog (A : Type) : Type :=
  | Ret (a : A)
  | Raise (e : exn)
  | Invoke (c : call) (k : outcome pyval -> prog A)
  | Emit (l : log_record) (k : prog A).
Arguments Ret {A} a.
Arguments Raise {A} e.
Arguments Invoke {A} c k.
Arguments Emit {A} l k.

Fixpoint prog_bind {A B} (f : A -> prog B) (p : prog A) : prog B :=
  match p with
  | Ret a => f a
  | Raise e => Raise e
  | Invoke c k => Invoke c (fun r => prog_bind f (k r))
  | Emit l k => Emit l (prog_bind f k)
  end.

#[global] Instance prog_mret : MRet prog := fun A a => Ret a.
#[global] Instance prog_mbind : MBind prog := fun A B f p => prog_bind f p.

(** A call whose exception, if any, propagates. *)
Definition invoke (c : call) : prog pyval :=
  Invoke c (fun r => match r with Val v => Ret v | Exc e => Raise e end).

Definition log (l : log_record) : prog unit := Emit l (Ret tt).

(** A pure expression evaluated inside a method. *)
Definition lift {A} (o : outcome A) : prog A :=
  match o with
  | Val a => Ret a
  | Exc e => Raise e
  end.

(** [catch p h]: run [p]; an exception raised anywhere in it, by the code
    or by a collaborator, is passed to [h]. *)
Fixpoint catch {A} (p : prog A) (h : exn -> prog A) : prog A :=
  match p with
  | Ret a => Ret a
  | Raise e => h e
  | Invoke c k => Invoke c (fun r => catch (k r) h)
  | Emit l k => Emit l (catch k h)
  end.

(** [try: p except c1 as e: h1 e except c2 as e: h2 e ...]: the first
    clause whose class the exception is an instance of handles it; with no
    such clause the exception propagates.  An exception raised by a handler
    is not seen by the other clauses. *)
Definition try_ {A} (p : prog A) (clauses : list (exn_class * (exn -> prog A)))
  : prog A :=
  catch p (fun e =>
    match List.find (fun cl => isinstance e cl.1) clauses with
    | Some cl => cl.2 e
    | None => Raise e
    end).

(** ** Running a program *)

(** What a run yields: the method's outcome, the calls and log records in
    the order they happened, and the backend's state afterwards. *)
Record result (S A : Type) : Type :=
  Result { returned : outcome A; trace : list event; final : S }.
Arguments Result {S A} returned trace final.
Arguments returned {S A} r.
Arguments trace {S A} r.
Arguments final {S A} r.

Definition after {S A} (ev : event) (r : result S A) : result S A :=
  Result (returned r) (ev :: trace r) (final r).

(** A backend answers each call in its current state with a value or an
    exception and moves to a new state.  Nothing is assumed of it. *)
Fixpoint run {S A} (backend : call -> S -> outcome pyval * S)
    (p : prog A) (s : S) : result S A :=
  match p with
  | Ret a => Result (Val a) [] s
  | Raise e => Result (Exc e) [] s
  | Invoke c k =>
      let r := backend c s in
      after (Called c) (run backend (k r.1) r.2)
  | Emit l k => after (Logged l) (run backend k s)
  end.

(** ** The module *)

(** [req.environ['nova.context']]: the request context, which the WSGI
    stack has put into the environment before the controller is reached. *)
Record environ_t : Type := { nova_context : pyval }.
Record request : Type := { environ : environ_t }.

(** What a method returns: a dictionary, which the framework serializes
    with status 200, or a [webob.Response]. *)
Inductive retval : Type :=
  | Dict (d : gmap string pyval)
  | Response (status_int : Z) (body : string).

(** The status code of each [webob.exc] class. *)
Definition code (c : exn_class) : option Z :=
  match c with
  | HTTPBadRequest => Some 400
  | HTTPNotFound => Some 404
  | HTTPInternalServerError => Some 500
  | HTTPNotImplemented => Some 501
  | _ => None
  end.

(** The HTTP status the method itself determines: that of what it returns
    or of the [webob.exc] error it raises; [None] for any other exception,
    which escapes the method unmapped. *)
Definition status (o : outcome retval) : option Z :=
  match o with
  | Val (Dict _) => Some 200
  | Val (Response s _) => Some s
  | Exc e => code (class_of e)
  end.

(** Maps keys for interface attachment details view. *)
Definition _translate_interface_attachment_view (port_info : pyval)
  : outcome pyval :=
  net_id ← getitem port_info "network_id";
  port_id ← getitem port_info "id";
  mac_addr ← getitem port_info "mac_address";
  port_state ← getitem port_info "status";
  fixed_ips ← get port_info "fixed_ips" PNone;
  Val (PDict {[ "net_id" := net_id;
                "port_id" := port_id;
                "mac_addr" := mac_addr;
                "port_state" := port_state;
                "fixed_ips" := fixed_ips ]}).

Module InterfaceAttachmentController.

(** Returns a list of attachments, transformed through entity_maker. *)
Definition _items (req : request) (server_id : string)
    (entity_maker : pyval -> outcome pyval) : prog retval :=
  let context := nova_context (environ req) in
  _ ← invoke (authorize context);
  instance ← try_ (invoke (compute_api_get context server_id))
    [ (InstanceNotFound, fun e =>
         m ← lift (format_message e);
         Raise (exc HTTPNotFound (Some m))) ];
  uuid ← lift (getitem instance "uuid");
  let search_opts : gmap string pyval := {[ "device_id" := uuid ]} in
  data ← try_ (invoke (network_api_list_ports context search_opts))
    [ (NotFound, fun _ => Raise (exc HTTPNotFound None));
      (NotImplementedError, fun _ =>
         let msg := "Network driver does not support this function." in
         Raise (exc HTTPNotImplemented (Some msg))) ];
  ports ← lift (get data "ports" (PList []));
  elements ← lift (iter ports);
  results ← lift (comprehension entity_maker elements);
  Ret (Dict {[ "interface_attachments" := PList results ]}).

(** Returns the list of interface attachments for a given instance. *)
Definition index (req : request) (server_id : string) : prog retval :=
  _items req server_id _translate_interface_attachment_view.

(** Return data about the given interface attachment. *)
Definition show (req : request) (server_id : string) (id : pyval)
  : prog retval :=
  let context := nova_context (environ req) in
  _ ← invoke (authorize context);
  let port_id := id in
  _ ← try_ (invoke (compute_api_get context server_id))
    [ (InstanceNotFound, fun err =>
         m ← lift (format_message err);
         Raise (exc HTTPNotFound (Some m))) ];
  port_info ← try_ (invoke (network_api_show_port context port_id))
    [ (NotFound, fun _ => Raise (exc HTTPNotFound None)) ];
  port ← lift (getitem port_info "port");
  device_id ← lift (getitem port "device_id");
  if ne_str device_id server_id then Raise (exc HTTPNotFound None)
  else
    port ← lift (getitem port_info "port");
    view ← lift (_translate_interface_attachment_view port);
    Ret (Dict {[ "interface_attachment" := view ]}).

(** The block of [create] that reads [network_id], [port_id] and [req_ip]
    from the body (from [network_id = None] to the [except Exception:
    pass]); it calls no collaborator. *)
Definition create_params (body : pyval) : prog (pyval * pyval * pyval) :=
  if truthy body then
    attachment ← lift (getitem body "interface_attachment");
    network_id ← lift (get attachment "net_id" PNone);
    port_id ← lift (get attachment "port_id" PNone);
    req_ip ← try_
      (fixed_ips ← lift (getitem attachment "fixed_ips");
       first ← lift (getindex fixed_ips 0);
       lift (getitem first "ip_address"))
      [ (Exception, fun _ => Ret PNone) ];
    Ret (network_id, port_id, req_ip)
  else Ret (PNone, PNone, PNone).

(** Attach an interface to an instance. *)
Definition create (req : request) (server_id : string) (body : pyval)
  : prog retval :=
  let context := nova_context (environ req) in
  _ ← invoke (authorize context);
  '(network_id, port_id, req_ip) ← create_params body;
  if truthy network_id && truthy port_id then Raise (exc HTTPBadRequest None)
  else if truthy req_ip && negb (truthy network_id)
  then Raise (exc HTTPBadRequest None)
  else
    port_info ← try_
      (instance ← invoke (compute_api_get context server_id);
       _ ← log (LOG_audit "Attach interface to %s" [] instance);
       invoke (compute_api_attach_interface
                 context instance network_id port_id req_ip))
      [ (InstanceNotFound, fun err =>
           m ← lift (format_message err);
           Raise (exc HTTPNotFound (Some m)));
        (NotImplementedError, fun e =>
           m ← lift (format_message e);
           Raise (exc HTTPNotImplemented (Some m)));
        (InterfaceAttachFailed, fun e =>
           _ ← log (LOG_exception e);
           m ← lift (format_message e);
           Raise (exc HTTPInternalServerError (Some m))) ];
    new_id ← lift (getitem port_info "id");
    show req server_id new_id.

(** Update a interface attachment.  We don't currently support this. *)
Definition update (req : request) (server_id : string) (id body : pyval)
  : prog retval :=
  let msg := "Attachments update is not supported" in
  Raise (exc HTTPNotImplemented (Some msg)).

(** Detach an interface from an instance. *)
Definition delete (req : request) (server_id : string) (id : pyval)
  : prog retval :=
  let context := nova_context (environ req) in
  _ ← invoke (authorize context);
  let port_id := id in
  instance ← try_
    (instance ← invoke (compute_api_get context server_id);
     _ ← log (LOG_audit "Detach interface %s" [port_id] instance);
     Ret instance)
    [ (InstanceNotFound, fun err =>
         m ← lift (format_message err);
         Raise (exc HTTPNotFound (Some m))) ];
  _ ← try_
    (invoke (compute_api_detach_interface context instance port_id))
    [ (PortNotFound, fun _ => Raise (exc HTTPNotFound None));
      (NotImplementedError, fun e =>
         m ← lift (format_message e);
         Raise (exc HTTPNotImplemented (Some m))) ];
  Ret (Response 202 "").

End InterfaceAttachmentController.

(** ** Vocabulary of the statements *)

(** [tr] happened, then the run [r]. *)
Definition prepend {S A} (tr : list event) (r : result S A) : result S A :=
  Result (returned r) (tr ++ trace r)%list (final r).

(** The first thing a run does is the authorization check for the
    request's context: no call to the compute or the network API and no
    response comes before it. *)
Definition authorizes_first {S A} (req : request) (r : result S A) : Prop :=
  ∃ tr, trace r = Called (authorize (nova_context (environ req))) :: tr.

(** ** A small backend for the examples *)

(** A world with a policy switch, instances, ports, and a virt driver
    whose attach and detach either work or raise. *)
Record world : Type := World {
  allowed : bool;
  instances : gmap string pyval;
  ports : gmap string pyval;
  attach : outcome pyval;
  detach : option exn }.

Definition port_key (v : pyval) : string :=
  match v with
  | PStr s => s
  | _ => ""
  end.

Definition id_of (port : pyval) : string :=
  match getitem port "id" with
  | Val i => port_key i
  | Exc _ => ""
  end.

Definition device_is (dev : pyval) (port : pyval) : bool :=
  match getitem port "device_id", dev with
  | Val (PStr d), PStr d' => String.eqb d d'
  | _, _ => false
  end.

Definition fake (c : call) (w : world) : outcome pyval * world :=
  match c with
  | authorize _ =>
      (if allowed w then Val PNone
       else Exc (exc Forbidden (Some "Policy doesn't allow this")), w)
  | compute_api_get _ instance_id =>
      (match instances w !! instance_id with
       | Some i => Val i
       | None => Exc (exc InstanceNotFound (Some "Instance not found"))
       end, w)
  | compute_api_attach_interface _ _ _ _ _ =>
      match attach w with
      | Val p =>
          (Val p,
           World (allowed w) (instances w)
             (<[id_of p := p]> (ports w))
             (attach w) (detach w))
      | Exc e => (Exc e, w)
      end
  | compute_api_detach_interface _ _ port_id =>
      match detach w with
      | Some e => (Exc e, w)
      | None =>
          (Val PNone,
           World (allowed w) (instances w)
             (delete (port_key port_id) (ports w)) (attach w) (detach w))
      end
  | network_api_show_port _ port_id =>
      (match ports w !! port_key port_id with
       | Some p => Val (PDict {[ "port" := p ]})
       | None => Exc (exc PortNotFound (Some "Port not found"))
       end, w)
  | network_api_list_ports _ search_opts =>
      (Val (PDict {[ "ports" :=
         PList (List.filter
                  (device_is (default PNone (search_opts !! "device_id")))
                  ((map_to_list (ports w)).*2)) ]}), w)
  end.

Definition req0 : request :=
  {| environ := {| nova_context := PStr "admin" |} |}.

Definition srv1 : pyval := PDict {[ "uuid" := PStr "srv-1" ]}.

Definition port_p1 : gmap string pyval :=
  {[ "id" := PStr "p1"; "network_id" := PStr "net-A";
     "mac_address" := PStr "fa:16:3e:00:00:01"; "status" := PStr "ACTIVE";
     "device_id" := PStr "srv-1";
     "fixed_ips" := PList [PDict {[ "ip_address" := PStr "10.0.0.5" ]}] ]}.

(** A port of another instance. *)
Definition port_q7 : gmap string pyval :=
  {[ "id" := PStr "q7"; "network_id" := PStr "net-B";
     "mac_address" := PStr "fa:16:3e:00:00:07"; "status" := PStr "DOWN";
     "device_id" := PStr "srv-2" ]}.

Definition w0 : world :=
  {| allowed := true;
     instances := {[ "srv-1" := srv1 ]};
     ports := {[ "q7" := PDict port_q7 ]};
     attach := Val (PDict port_p1);
     detach := None |}.

(** [srv-1] with [p1] attached. *)
Definition w1 : world :=
  {| allowed := true;
     instances := {[ "srv-1" := srv1 ]};
     ports := {[ "p1" := PDict port_p1; "q7" := PDict port_q7 ]};
     attach := Val (PDict port_p1);
     detach := None |}.

Definition with_attach (o : outcome pyval) (w : world) : world :=
  World (allowed w) (instances w) (ports w) o (detach w).

Definition with_detach (e : option exn) (w : world) : world :=
  World (allowed w) (instances w) (ports w) (attach w) e.

Definition body_of (attachment : gmap string pyval) : pyval :=
  PDict {[ "interface_attachment" := PDict attachment ]}.

(** The calls and records of a read: the authorization check and the
    lookups; no attach, no detach, no log record. *)
Definition read_only (ev : event) : bool :=
  match ev with
  | Called (authorize _) => true
  | Called (compute_api_get _ _) => true
  | Called (network_api_show_port _ _) => true
  | Called (network_api_list_ports _ _) => true
  | Called (compute_api_attach_interface _ _ _ _ _) => false
  | Called (compute_api_detach_interface _ _ _) => false
  | Logged _ => false
  end.

(** The two tests of [create] on the parameters read from the body. *)
Definition conflicting (network_id port_id req_ip : pyval) : bool :=
  truthy network_id && truthy port_id
  || truthy req_ip && negb (truthy network_id).

(** The keys of an interface attachment view. *)
Definition view_keys : gset string :=
  {[ "net_id"; "port_id"; "mac_addr"; "port_state"; "fixed_ips" ]}.

(** [w1] with a policy that refuses the caller. *)
Definition w_refused : world :=
  World false (instances w1) (ports w1) (attach w1) (detach w1).

(** [w1] where the port the driver reports is one the network service
    holds for another instance. *)
Definition w_foreign : world := with_attach (Val (PDict port_q7)) w1.

(** A port record without a MAC address. *)
Definition port_nomac : gmap string pyval :=
  {[ "id" := PStr "n3"; "network_id" := PStr "net-A";
     "status" := PStr "BUILD"; "device_id" := PStr "srv-1" ]}.

(** A backend that plays a script: it answers the calls, whatever they
    are, with the answers it was given, in order. *)
Definition scripted (c : call) (answers : list (outcome pyval))
  : outcome pyval * list (outcome pyval) :=
  match answers with
  | a :: rest => (a, rest)
  | [] => (Exc (exc Exception (Some "script exhausted")), [])
  end.

(** * Properties *)

Import InterfaceAttachmentController.

(** ** Running programs, step by step *)

Section Run.
Context {S : Type} (backend : call -> S -> outcome pyval * S).

Lemma prepend_nil {A} (r : result S A) : prepend [] r = r.
Proof. by destruct r. Qed.

(** Sequencing: the second program starts where the first one stopped,
    unless the first one raised. *)
Lemma run_bind {A B} (p : prog A) (f : A -> prog B) (s : S) :
  run backend (p ≫= f) s =
  match returned (run backend p s) with
  | Val a =>
      prepend (trace (run backend p s))
        (run backend (f a) (final (run backend p s)))
  | Exc e =>
      Result (Exc e) (trace (run backend p s)) (final (run backend p s))
  end.
Proof.
  revert s. induction p as [a|e|c k IH|l k IH]; intros s.
  - symmetry. apply prepend_nil.
  - done.
  - change (run backend (Invoke c k ≫= f) s) with
      (after (Called c)
         (run backend (k (backend c s).1 ≫= f) (backend c s).2)).
    rewrite IH. cbn [run after returned trace final].
    by destruct (returned _).
  - change (run backend (Emit l k ≫= f) s) with
      (after (Logged l) (run backend (k ≫= f) s)).
    rewrite IH. cbn [run after returned trace final].
    by destruct (returned _).
Qed.

(** Handling: the handler starts where the body raised. *)
Lemma run_catch {A} (p : prog A) (h : exn -> prog A) (s : S) :
  run backend (catch p h) s =
  match returned (run backend p s) with
  | Val a => run backend p s
  | Exc e =>
      prepend (trace (run backend p s))
        (run backend (h e) (final (run backend p s)))
  end.
Proof.
  revert s. induction p as [a|e|c k IH|l k IH]; intros s; cbn [catch run].
  - done.
  - symmetry. apply prepend_nil.
  - rewrite IH. cbn [after returned trace final]. by destruct (returned _).
  - rewrite IH. cbn [after returned trace final]. by destruct (returned _).
Qed.

End Run.

(** Everything is an [Exception]. *)
Lemma isinstance_Exception (e : exn) : isinstance e Exception = true.
Proof. destruct e as [[] m]; by vm_compute. Qed.

Ltac class_tests :=
  repeat match goal with
    | |- context [isinstance (exc ?c ?m) ?c'] =>
        let v := eval vm_compute in (bool_decide (c' ∈ mro c)) in
        change (isinstance (exc c m) c') with v
    end.

(** Unfolds the method as far as the next call whose answer is not known
    yet, leaving the dictionaries as they are written. *)
Ltac exec :=
  repeat (cbn [run mbind prog_mbind prog_bind mret prog_mret outcome_bind
               outcome_ret invoke log lift catch try_ List.find getitem get iter
               fst snd returned trace final];
          class_tests).

(** Uses the backend's answer [H] to the pending call. *)
Ltac answer H := rewrite H; exec.

(** ** update *)

(** C7: for every request, server, port id and body, on any backend and in
    any state, [update] raises HTTPNotImplemented (501); it calls nothing
    (the trace is empty, the state unchanged) and so never succeeds. *)
Theorem update_always_not_implemented :
  ∀ (S : Type) (backend : call -> S -> outcome pyval * S) (s : S)
    (req : request) (server_id : string) (id body : pyval),
    run backend (update req server_id id body) s =
      Result (Exc (exc HTTPNotImplemented
                     (Some "Attachments update is not supported"))) [] s
    ∧ status (returned (run backend (update req server_id id body) s))
      = Some 501
    ∧ ∀ a, returned (run backend (update req server_id id body) s) ≠ Val a.
Proof. intros. by repeat split. Qed.

(** ** show *)

Lemma ne_str_false (v : pyval) (s : string) :
  ne_str v s = false ↔ v = PStr s.
Proof.
  split.
  - destruct v; try done. cbn. intros H%negb_false_iff%String.eqb_eq.
    by subst.
  - intros ->. cbn. by rewrite String.eqb_refl.
Qed.

(** The view of a port that has the four mandatory fields. *)
Lemma translate_port (port : gmap string pyval) (i net mac st : pyval) :
  port !! "network_id" = Some net →
  port !! "id" = Some i →
  port !! "mac_address" = Some mac →
  port !! "status" = Some st →
  _translate_interface_attachment_view (PDict port) =
    Val (PDict {[ "net_id" := net;
                  "port_id" := i;
                  "mac_addr" := mac;
                  "port_state" := st;
                  "fixed_ips" := default PNone (port !! "fixed_ips") ]}).
Proof.
  intros Hnet Hid Hmac Hst. unfold _translate_interface_attachment_view.
  cbn [getitem get mbind outcome_bind].
  by rewrite Hnet, Hid, Hmac, Hst.
Qed.

(** C5: when the call is authorized, the instance exists and the network
    service returns, for [port_id], the port with that id, whose
    [device_id] is [server_id], then [show] succeeds after exactly these
    three calls, and the view it returns has [port_id] equal to the
    requested one and maps [net_id], [port_id], [mac_addr], [port_state]
    and [fixed_ips] from the port's [network_id], [id], [mac_address],
    [status] and [fixed_ips] ([None] when the port has no [fixed_ips]). *)
Theorem show_returns_view_of_owned_port :
  ∀ (S : Type) (backend : call -> S -> outcome pyval * S) (s0 s1 s2 s3 : S)
    (req : request) (server_id : string) (port_id : pyval)
    (granted instance port_info net mac st : pyval)
    (port : gmap string pyval),
    backend (authorize (nova_context (environ req))) s0 = (Val granted, s1) →
    backend (compute_api_get (nova_context (environ req)) server_id) s1
      = (Val instance, s2) →
    backend (network_api_show_port (nova_context (environ req)) port_id) s2
      = (Val port_info, s3) →
    getitem port_info "port" = Val (PDict port) →
    port !! "device_id" = Some (PStr server_id) →
    port !! "id" = Some port_id →
    port !! "network_id" = Some net →
    port !! "mac_address" = Some mac →
    port !! "status" = Some st →
    run backend (show req server_id port_id) s0 =
      Result
        (Val (Dict {[ "interface_attachment" :=
           PDict {[ "net_id" := net;
                    "port_id" := port_id;
                    "mac_addr" := mac;
                    "port_state" := st;
                    "fixed_ips" := default PNone (port !! "fixed_ips") ]} ]}))
        [ Called (authorize (nova_context (environ req)));
          Called (compute_api_get (nova_context (environ req)) server_id);
          Called (network_api_show_port (nova_context (environ req)) port_id) ]
        s3.
Proof.
  intros S backend s0 s1 s2 s3 req server_id port_id granted instance
    port_info net mac st port Hauth Hget Hport Hp Hdev Hid Hnet Hmac Hst.
  unfold show. exec. answer Hauth. answer Hget. answer Hport.
  answer Hp. answer Hdev.
  rewrite (proj2 (ne_str_false _ _) eq_refl). exec.
  rewrite (translate_port port port_id net mac st) by done. exec.
  done.
Qed.

(** C1: when the call is authorized, the instance exists and the network
    service returns a port whose [device_id] is not [server_id], [show]
    raises HTTPNotFound with no explanation, so nothing of the port
    reaches the caller; and whatever the backend does, a view that [show]
    returns is the view of the port the network service returned for this
    call, whose [device_id] is [server_id]. *)
Theorem show_hides_ports_of_other_instances :
  ∀ (S : Type) (backend : call -> S -> outcome pyval * S) (s0 : S)
    (req : request) (server_id : string) (port_id : pyval),
    (∀ (s1 s2 s3 : S) (granted instance port_info port device_id : pyval),
       backend (authorize (nova_context (environ req))) s0
         = (Val granted, s1) →
       backend (compute_api_get (nova_context (environ req)) server_id) s1
         = (Val instance, s2) →
       backend (network_api_show_port (nova_context (environ req)) port_id) s2
         = (Val port_info, s3) →
       getitem port_info "port" = Val port →
       getitem port "device_id" = Val device_id →
       ne_str device_id server_id = true →
       run backend (show req server_id port_id) s0 =
         Result (Exc (exc HTTPNotFound None))
           [ Called (authorize (nova_context (environ req)));
             Called (compute_api_get (nova_context (environ req)) server_id);
             Called (network_api_show_port
                       (nova_context (environ req)) port_id) ]
           s3)
    ∧ (∀ r : retval,
         returned (run backend (show req server_id port_id) s0) = Val r →
         ∃ (s1 s2 s3 : S) (granted instance port_info port view : pyval),
           backend (authorize (nova_context (environ req))) s0
             = (Val granted, s1)
           ∧ backend (compute_api_get (nova_context (environ req)) server_id)
               s1
             = (Val instance, s2)
           ∧ backend (network_api_show_port
                        (nova_context (environ req)) port_id) s2
             = (Val port_info, s3)
           ∧ getitem port_info "port" = Val port
           ∧ getitem port "device_id" = Val (PStr server_id)
           ∧ _translate_interface_attachment_view port = Val view
           ∧ r = Dict {[ "interface_attachment" := view ]}).
Proof.
  intros S backend s0 req server_id port_id. split.
  - intros s1 s2 s3 granted instance port_info port device_id
      Hauth Hget Hport Hp Hdev Hne.
    unfold show. exec. answer Hauth. answer Hget. answer Hport.
    answer Hp. answer Hdev. by answer Hne.
  - intros r. unfold show. exec.
    destruct (backend (authorize _) s0) as [[granted|e] s1] eqn:Hauth; exec;
      [|done].
    destruct (backend (compute_api_get _ _) s1) as [[instance|e] s2] eqn:Hget;
      exec.
    2:{ destruct (isinstance e InstanceNotFound); exec; [|done].
        by destruct (format_message e); exec. }
    destruct (backend (network_api_show_port _ _) s2)
      as [[port_info|e] s3] eqn:Hport; exec.
    2:{ by destruct (isinstance e NotFound); exec. }
    destruct (getitem port_info "port") as [port|e] eqn:Hp; exec; [|done].
    destruct (getitem port "device_id") as [device_id|e] eqn:Hdev; exec;
      [|done].
    destruct (ne_str device_id server_id) eqn:Hne; exec; [done|].
    apply ne_str_false in Hne as ->.
    destruct (_translate_interface_attachment_view port) as [view|e] eqn:Hv;
      exec; [|done].
    intros [= <-].
    by exists s1, s2, s3, granted, instance, port_info, port, view.
Qed.

(** ** create: reading the body *)

Lemma truthy_dict (d : gmap string pyval) (k : string) (x : pyval) :
  d !! k = Some x → truthy (PDict d) = true.
Proof.
  intros H. cbn. destruct (map_to_list d) eqn:E; [|done].
  apply map_to_list_empty_iff in E. subst. by rewrite lookup_empty in H.
Qed.

(** With no body, or a falsy one, the three parameters are all [None]. *)
Lemma create_params_falsy (body : pyval) :
  truthy body = false → create_params body = Ret (PNone, PNone, PNone).
Proof. intros H. unfold create_params. by rewrite H. Qed.

(** With an [interface_attachment] dictionary in the body, reading never
    fails: [net_id] and [port_id] default to [None], and the requested
    address is [fixed_ips[0]['ip_address']] when that exists. *)
Lemma create_params_attachment (body attachment : gmap string pyval) :
  body !! "interface_attachment" = Some (PDict attachment) →
  ∃ req_ip,
    create_params (PDict body) =
      Ret (default PNone (attachment !! "net_id"),
           default PNone (attachment !! "port_id"), req_ip)
    ∧ ∀ (first : gmap string pyval) (rest : list pyval) (x : pyval),
        attachment !! "fixed_ips" = Some (PList (PDict first :: rest)) →
        first !! "ip_address" = Some x →
        req_ip = x.
Proof.
  intros Hb. unfold create_params.
  rewrite (truthy_dict _ _ _ Hb). exec. answer Hb.
  destruct (attachment !! "fixed_ips") as [fixed_ips|] eqn:Hf; exec.
  2:{ rewrite ?isinstance_Exception. exec. eexists. split; [done|].
      intros ??? [=]. }
  destruct (getindex fixed_ips 0) as [first0|e] eqn:H0; exec.
  2:{ rewrite ?isinstance_Exception. exec. eexists. split; [done|].
      intros first rest x [= ->]. by cbn in H0. }
  destruct (getitem first0 "ip_address") as [ip|e] eqn:Hip; exec.
  2:{ rewrite ?isinstance_Exception. exec. eexists. split; [done|].
      intros first rest x [= ->] Hx.
      cbn in H0. injection H0 as <-. cbn in Hip. by rewrite Hx in Hip. }
  eexists. split; [done|].
  intros first rest x [= ->] Hx.
  cbn in H0. injection H0 as <-. cbn in Hip. rewrite Hx in Hip.
  by injection Hip.
Qed.

(** ** create: validation *)

(** C2, as the code has it: when the call is authorized and the body's
    [interface_attachment] has a truthy [net_id] and a truthy [port_id],
    or has a truthy [fixed_ips[0]['ip_address']] and no truthy [net_id],
    [create] raises HTTPBadRequest (400) right after the authorization
    check: no compute or network call is made, whatever the backend. *)
Theorem create_rejects_conflicting_parameters :
  ∀ (S : Type) (backend : call -> S -> outcome pyval * S) (s0 s1 : S)
    (req : request) (server_id : string) (granted : pyval)
    (body attachment : gmap string pyval),
    backend (authorize (nova_context (environ req))) s0 = (Val granted, s1) →
    body !! "interface_attachment" = Some (PDict attachment) →
    (truthy (default PNone (attachment !! "net_id")) = true
     ∧ truthy (default PNone (attachment !! "port_id")) = true)
    ∨ (truthy (default PNone (attachment !! "net_id")) = false
       ∧ ∃ (first : gmap string pyval) (rest : list pyval) (x : pyval),
           attachment !! "fixed_ips" = Some (PList (PDict first :: rest))
           ∧ first !! "ip_address" = Some x
           ∧ truthy x = true) →
    run backend (create req server_id (PDict body)) s0 =
      Result (Exc (exc HTTPBadRequest None))
        [ Called (authorize (nova_context (environ req))) ] s1
    ∧ status (returned (run backend (create req server_id (PDict body)) s0))
      = Some 400.
Proof.
  intros S backend s0 s1 req server_id granted body attachment
    Hauth Hb Hcase.
  destruct (create_params_attachment body attachment Hb)
    as (req_ip & Hparams & Hip).
  assert (run backend (create req server_id (PDict body)) s0 =
            Result (Exc (exc HTTPBadRequest None))
              [ Called (authorize (nova_context (environ req))) ] s1) as Hrun.
  { unfold create. exec. answer Hauth. rewrite Hparams. exec.
    destruct Hcase as [[Hn Hp]|(Hn & first & rest & x & Hf & Hx & Ht)].
    - rewrite Hn, Hp. by exec.
    - rewrite Hn. rewrite (Hip first rest x Hf Hx), Ht. by exec. }
  by rewrite Hrun.
Qed.

(** ** create: delegation *)

(** C6: when the call is authorized, the parameters read from the body
    pass validation, the instance exists and [attach_interface] returns a
    port record with an [id], then [create] is: these four steps, then
    [show] with the same request, the same server and the new port's id,
    run in the state the attach left.  In particular [create] returns
    what that [show] returns, not the record [attach_interface] gave. *)
Theorem create_returns_what_show_returns :
  ∀ (S : Type) (backend : call -> S -> outcome pyval * S) (s0 s1 s2 s3 : S)
    (req : request) (server_id : string)
    (body network_id port_id req_ip granted instance port_info new_id : pyval),
    backend (authorize (nova_context (environ req))) s0 = (Val granted, s1) →
    create_params body = Ret (network_id, port_id, req_ip) →
    truthy network_id && truthy port_id = false →
    truthy req_ip && negb (truthy network_id) = false →
    backend (compute_api_get (nova_context (environ req)) server_id) s1
      = (Val instance, s2) →
    backend (compute_api_attach_interface (nova_context (environ req))
               instance network_id port_id req_ip) s2
      = (Val port_info, s3) →
    getitem port_info "id" = Val new_id →
    run backend (create req server_id body) s0 =
      prepend
        [ Called (authorize (nova_context (environ req)));
          Called (compute_api_get (nova_context (environ req)) server_id);
          Logged (LOG_audit "Attach interface to %s" [] instance);
          Called (compute_api_attach_interface (nova_context (environ req))
                    instance network_id port_id req_ip) ]
        (run backend (show req server_id new_id) s3)
    ∧ returned (run backend (create req server_id body) s0)
      = returned (run backend (show req server_id new_id) s3).
Proof.
  intros S backend s0 s1 s2 s3 req server_id body network_id port_id req_ip
    granted instance port_info new_id Hauth Hparams Hv1 Hv2 Hget Hatt Hid.
  assert (run backend (create req server_id body) s0 =
      prepend
        [ Called (authorize (nova_context (environ req)));
          Called (compute_api_get (nova_context (environ req)) server_id);
          Logged (LOG_audit "Attach interface to %s" [] instance);
          Called (compute_api_attach_interface (nova_context (environ req))
                    instance network_id port_id req_ip) ]
        (run backend (show req server_id new_id) s3)) as Hrun.
  { unfold create. exec. answer Hauth. rewrite Hparams. exec.
    rewrite Hv1, Hv2. exec. answer Hget. answer Hatt. answer Hid.
    unfold after, prepend. by cbn [returned trace final app]. }
  by rewrite Hrun.
Qed.

(** C10: with an absent or falsy body, an authorized [create] on an
    existing instance raises no HTTPBadRequest but goes on to
    [attach_interface], called with [network_id], [port_id] and [req_ip]
    all [None]; with a non-empty dictionary that has no
    [interface_attachment] key, an authorized [create] raises the KeyError
    of the lookup (a LookupError), which is no [webob.exc] error and has
    no HTTP status of its own, before any compute or network call. *)
Theorem create_body_absent_or_without_attachment :
  ∀ (S : Type) (backend : call -> S -> outcome pyval * S) (s0 s1 : S)
    (req : request) (server_id : string) (granted : pyval),
    backend (authorize (nova_context (environ req))) s0 = (Val granted, s1) →
    (∀ (body instance : pyval) (s2 : S),
       truthy body = false →
       backend (compute_api_get (nova_context (environ req)) server_id) s1
         = (Val instance, s2) →
       ∃ tr,
         trace (run backend (create req server_id body) s0) =
           Called (authorize (nova_context (environ req)))
           :: Called (compute_api_get (nova_context (environ req)) server_id)
           :: Logged (LOG_audit "Attach interface to %s" [] instance)
           :: Called (compute_api_attach_interface
                        (nova_context (environ req)) instance
                        PNone PNone PNone)
           :: tr)
    ∧ (∀ body : gmap string pyval,
         truthy (PDict body) = true →
         body !! "interface_attachment" = None →
         run backend (create req server_id (PDict body)) s0 =
           Result (Exc (exc KeyError (Some "interface_attachment")))
             [ Called (authorize (nova_context (environ req))) ] s1
         ∧ isinstance (exc KeyError (Some "interface_attachment")) LookupError
           = true
         ∧ status
             (returned (run backend (create req server_id (PDict body)) s0))
           = None).
Proof.
  intros S backend s0 s1 req server_id granted Hauth. split.
  - intros body instance s2 Hbody Hget.
    unfold create. exec. answer Hauth.
    rewrite (create_params_falsy body Hbody). exec.
    cbn [truthy andb negb]. exec. answer Hget.
    cbn [after trace]. by eexists.
  - intros body Hbody Hnone.
    assert (run backend (create req server_id (PDict body)) s0 =
              Result (Exc (exc KeyError (Some "interface_attachment")))
                [ Called (authorize (nova_context (environ req))) ] s1)
      as Hrun.
    { unfold create, create_params. exec. answer Hauth.
      rewrite Hbody. exec. by answer Hnone. }
    by rewrite Hrun.
Qed.

(** The two mappings of [create]'s [try] that work. *)

(** X15: when the call is authorized, the body accepted and
    [compute_api.get] raises an InstanceNotFound carrying the text [m],
    [create] raises HTTPNotFound (404) with explanation [m] and attaches
    nothing. *)
Lemma create_maps_instance_not_found :
  ∀ (S : Type) (backend : call -> S -> outcome pyval * S) (s0 s1 s2 : S)
    (req : request) (server_id : string)
    (body network_id port_id req_ip granted : pyval) (m : string),
    backend (authorize (nova_context (environ req))) s0 = (Val granted, s1) →
    create_params body = Ret (network_id, port_id, req_ip) →
    truthy network_id && truthy port_id = false →
    truthy req_ip && negb (truthy network_id) = false →
    backend (compute_api_get (nova_context (environ req)) server_id) s1
      = (Exc (exc InstanceNotFound (Some m)), s2) →
    run backend (create req server_id body) s0 =
      Result (Exc (exc HTTPNotFound (Some m)))
        [ Called (authorize (nova_context (environ req)));
          Called (compute_api_get (nova_context (environ req)) server_id) ]
        s2.
Proof.
  intros S backend s0 s1 s2 req server_id body network_id port_id req_ip
    granted m Hauth Hparams Hv1 Hv2 Hget.
  unfold create. exec. answer Hauth. rewrite Hparams. exec.
  rewrite Hv1, Hv2. exec. by answer Hget.
Qed.

(** X16: when [attach_interface] raises an InterfaceAttachFailed
    carrying the text [m], [create] writes the exception to the log with
    [LOG.exception] and raises HTTPInternalServerError (500) with
    explanation [m]. *)
Lemma create_maps_attach_failure :
  ∀ (S : Type) (backend : call -> S -> outcome pyval * S) (s0 s1 s2 s3 : S)
    (req : request) (server_id : string)
    (body network_id port_id req_ip granted instance : pyval)
    (m : string),
    backend (authorize (nova_context (environ req))) s0 = (Val granted, s1) →
    create_params body = Ret (network_id, port_id, req_ip) →
    truthy network_id && truthy port_id = false →
    truthy req_ip && negb (truthy network_id) = false →
    backend (compute_api_get (nova_context (environ req)) server_id) s1
      = (Val instance, s2) →
    backend (compute_api_attach_interface (nova_context (environ req))
               instance network_id port_id req_ip) s2
      = (Exc (exc InterfaceAttachFailed (Some m)), s3) →
    run backend (create req server_id body) s0 =
      Result (Exc (exc HTTPInternalServerError (Some m)))
        [ Called (authorize (nova_context (environ req)));
          Called (compute_api_get (nova_context (environ req)) server_id);
          Logged (LOG_audit "Attach interface to %s" [] instance);
          Called (compute_api_attach_interface (nova_context (environ req))
                    instance network_id port_id req_ip);
          Logged (LOG_exception (exc InterfaceAttachFailed (Some m))) ]
        s3.
Proof.
  intros S backend s0 s1 s2 s3 req server_id body network_id port_id req_ip
    granted instance m Hauth Hparams Hv1 Hv2 Hget Hatt.
  unfold create. exec. answer Hauth. rewrite Hparams. exec.
  rewrite Hv1, Hv2. exec. answer Hget. by answer Hatt.
Qed.

(** C4, what the code does where the claim expects 501: when
    [attach_interface] (in [create]) or [detach_interface] (in [delete])
    raises the builtin NotImplementedError, the [except] clause calls
    [e.format_message()], which a builtin exception does not have; the
    AttributeError of that lookup leaves the method, and no
    HTTPNotImplemented is raised. *)
Theorem not_implemented_error_escapes_as_attribute_error :
  ∀ (S : Type) (backend : call -> S -> outcome pyval * S) (s0 s1 s2 s3 : S)
    (req : request) (server_id : string)
    (granted instance : pyval) (m : option string),
    backend (authorize (nova_context (environ req))) s0 = (Val granted, s1) →
    backend (compute_api_get (nova_context (environ req)) server_id) s1
      = (Val instance, s2) →
    (∀ body network_id port_id req_ip : pyval,
       create_params body = Ret (network_id, port_id, req_ip) →
       truthy network_id && truthy port_id = false →
       truthy req_ip && negb (truthy network_id) = false →
       backend (compute_api_attach_interface (nova_context (environ req))
                  instance network_id port_id req_ip) s2
         = (Exc (exc NotImplementedError m), s3) →
       run backend (create req server_id body) s0 =
         Result (Exc (exc AttributeError (Some "format_message")))
           [ Called (authorize (nova_context (environ req)));
             Called (compute_api_get (nova_context (environ req)) server_id);
             Logged (LOG_audit "Attach interface to %s" [] instance);
             Called (compute_api_attach_interface
                       (nova_context (environ req))
                       instance network_id port_id req_ip) ]
           s3
       ∧ status (returned (run backend (create req server_id body) s0))
         = None)
    ∧ (∀ id : pyval,
         backend (compute_api_detach_interface (nova_context (environ req))
                    instance id) s2
           = (Exc (exc NotImplementedError m), s3) →
         run backend (delete req server_id id) s0 =
           Result (Exc (exc AttributeError (Some "format_message")))
             [ Called (authorize (nova_context (environ req)));
               Called (compute_api_get (nova_context (environ req)) server_id);
               Logged (LOG_audit "Detach interface %s" [id] instance);
               Called (compute_api_detach_interface
                         (nova_context (environ req)) instance id) ]
             s3
         ∧ status (returned (run backend (delete req server_id id) s0))
           = None).
Proof.
  intros S backend s0 s1 s2 s3 req server_id granted instance m Hauth Hget.
  split.
  - intros body network_id port_id req_ip Hparams Hv1 Hv2 Hatt.
    assert (run backend (create req server_id body) s0 =
         Result (Exc (exc AttributeError (Some "format_message")))
           [ Called (authorize (nova_context (environ req)));
             Called (compute_api_get (nova_context (environ req)) server_id);
             Logged (LOG_audit "Attach interface to %s" [] instance);
             Called (compute_api_attach_interface
                       (nova_context (environ req))
                       instance network_id port_id req_ip) ]
           s3) as Hrun.
    { unfold create. exec. answer Hauth. rewrite Hparams. exec.
      rewrite Hv1, Hv2. exec. answer Hget. by answer Hatt. }
    by rewrite Hrun.
  - intros id Hdet.
    assert (run backend (delete req server_id id) s0 =
           Result (Exc (exc AttributeError (Some "format_message")))
             [ Called (authorize (nova_context (environ req)));
               Called (compute_api_get (nova_context (environ req)) server_id);
               Logged (LOG_audit "Detach interface %s" [id] instance);
               Called (compute_api_detach_interface
                         (nova_context (environ req)) instance id) ]
             s3) as Hrun.
    { unfold delete. exec. answer Hauth. answer Hget. by answer Hdet. }
    by rewrite Hrun.
Qed.

(** ** delete *)

(** C8: when the call is authorized and the instance exists, [delete]
    raises HTTPNotFound (404) if [detach_interface] raises PortNotFound,
    and returns a response with status 202 and an empty body if
    [detach_interface] returns. *)
Theorem delete_port_not_found_or_accepted :
  ∀ (S : Type) (backend : call -> S -> outcome pyval * S) (s0 s1 s2 s3 : S)
    (req : request) (server_id : string) (id granted instance : pyval),
    backend (authorize (nova_context (environ req))) s0 = (Val granted, s1) →
    backend (compute_api_get (nova_context (environ req)) server_id) s1
      = (Val instance, s2) →
    (∀ m : option string,
       backend (compute_api_detach_interface (nova_context (environ req))
                  instance id) s2
         = (Exc (exc PortNotFound m), s3) →
       run backend (delete req server_id id) s0 =
         Result (Exc (exc HTTPNotFound None))
           [ Called (authorize (nova_context (environ req)));
             Called (compute_api_get (nova_context (environ req)) server_id);
             Logged (LOG_audit "Detach interface %s" [id] instance);
             Called (compute_api_detach_interface
                       (nova_context (environ req)) instance id) ]
           s3
       ∧ status (returned (run backend (delete req server_id id) s0))
         = Some 404)
    ∧ (∀ done_ : pyval,
         backend (compute_api_detach_interface (nova_context (environ req))
                    instance id) s2
           = (Val done_, s3) →
         run backend (delete req server_id id) s0 =
           Result (Val (Response 202 ""))
             [ Called (authorize (nova_context (environ req)));
               Called (compute_api_get (nova_context (environ req)) server_id);
               Logged (LOG_audit "Detach interface %s" [id] instance);
               Called (compute_api_detach_interface
                         (nova_context (environ req)) instance id) ]
             s3
         ∧ status (returned (run backend (delete req server_id id) s0))
           = Some 202).
Proof.
  intros S backend s0 s1 s2 s3 req server_id id granted instance Hauth Hget.
  split.
  - intros m Hdet.
    assert (run backend (delete req server_id id) s0 =
         Result (Exc (exc HTTPNotFound None))
           [ Called (authorize (nova_context (environ req)));
             Called (compute_api_get (nova_context (environ req)) server_id);
             Logged (LOG_audit "Detach interface %s" [id] instance);
             Called (compute_api_detach_interface
                       (nova_context (environ req)) instance id) ]
           s3) as Hrun.
    { unfold delete. exec. answer Hauth. answer Hget. by answer Hdet. }
    by rewrite Hrun.
  - intros done_ Hdet.
    assert (run backend (delete req server_id id) s0 =
           Result (Val (Response 202 ""))
             [ Called (authorize (nova_context (environ req)));
               Called (compute_api_get (nova_context (environ req)) server_id);
               Logged (LOG_audit "Detach interface %s" [id] instance);
               Called (compute_api_detach_interface
                         (nova_context (environ req)) instance id) ]
             s3) as Hrun.
    { unfold delete. exec. answer Hauth. answer Hget. by answer Hdet. }
    by rewrite Hrun.
Qed.

(** ** index *)

(** A comprehension that succeeds yields, position by position, the
    image of each element. *)
Lemma comprehension_Val {A B} (f : A -> outcome B) (l : list A) (ys : list B) :
  comprehension f l = Val ys → Forall2 (fun x y => f x = Val y) l ys.
Proof.
  revert ys. induction l as [|x l IH]; intros ys; cbn.
  - intros [= <-]. constructor.
  - destruct (f x) as [y|e] eqn:Hx; cbn; [|done].
    destruct (comprehension f l) as [ys'|e]; cbn; [|done].
    intros [= <-]. constructor; [done|]. by apply IH.
Qed.

(** Conversely, elements that each have an image make the comprehension
    succeed with the list of the images, in the elements' order. *)
Lemma comprehension_Forall2 {A B} (f : A -> outcome B)
    (l : list A) (ys : list B) :
  Forall2 (fun x y => f x = Val y) l ys → comprehension f l = Val ys.
Proof.
  induction 1 as [|x y l ys Hx _ IH]; cbn.
  - done.
  - by rewrite Hx, IH.
Qed.

(** C9: when the call is authorized, the instance exists and
    [list_ports], asked for [device_id = instance['uuid']], returns a
    sequence of ports, and [views] pairs each port, position by position,
    with its view, then the response's [interface_attachments] is
    [views]: as many entries as ports, the i-th one the view of the i-th
    port (nothing is filtered out or reordered); with no ports it is the
    empty list. *)
Theorem index_lists_views_in_order :
  ∀ (S : Type) (backend : call -> S -> outcome pyval * S) (s0 s1 s2 s3 : S)
    (req : request) (server_id : string)
    (granted instance uuid data : pyval) (ports views : list pyval),
    backend (authorize (nova_context (environ req))) s0 = (Val granted, s1) →
    backend (compute_api_get (nova_context (environ req)) server_id) s1
      = (Val instance, s2) →
    getitem instance "uuid" = Val uuid →
    backend (network_api_list_ports (nova_context (environ req))
               {[ "device_id" := uuid ]}) s2
      = (Val data, s3) →
    get data "ports" (PList []) = Val (PList ports) →
    Forall2
      (λ port view, _translate_interface_attachment_view port = Val view)
      ports views →
    run backend (index req server_id) s0 =
      Result (Val (Dict {[ "interface_attachments" := PList views ]}))
        [ Called (authorize (nova_context (environ req)));
          Called (compute_api_get (nova_context (environ req)) server_id);
          Called (network_api_list_ports (nova_context (environ req))
                    {[ "device_id" := uuid ]}) ]
        s3
    ∧ length views = length ports
    ∧ (∀ (i : nat) (port : pyval),
         ports !! i = Some port →
         ∃ view, views !! i = Some view
                 ∧ _translate_interface_attachment_view port = Val view)
    ∧ (ports = [] →
       returned (run backend (index req server_id) s0) =
         Val (Dict {[ "interface_attachments" := PList [] ]})).
Proof.
  intros S backend s0 s1 s2 s3 req server_id granted instance uuid data
    ports views Hauth Hget Huuid Hlist Hports Hall.
  assert (run backend (index req server_id) s0 =
      Result (Val (Dict {[ "interface_attachments" := PList views ]}))
        [ Called (authorize (nova_context (environ req)));
          Called (compute_api_get (nova_context (environ req)) server_id);
          Called (network_api_list_ports (nova_context (environ req))
                    {[ "device_id" := uuid ]}) ]
        s3) as Hrun.
  { unfold index, _items. exec. answer Hauth. answer Hget. answer Huuid.
    answer Hlist. answer Hports.
    by rewrite (comprehension_Forall2 _ _ _ Hall). }
  split; [done|]. split; [symmetry; by eapply Forall2_length|].
  split.
  - intros i port Hi.
    destruct (Forall2_lookup_l _ _ _ _ _ Hall Hi) as (view & Hv & Hf).
    by exists view.
  - intros ->. rewrite Hrun. by inversion Hall.
Qed.

(** ** Authorization *)

(** C3, as the code has it: [index], [show], [create] and [delete] start
    with the authorization check, on any backend, in any state, for any
    request: it precedes every compute and network call and the response.
    [update] makes no call at all, the authorization check included. *)
Theorem authorization_comes_first_except_in_update :
  ∀ (S : Type) (backend : call -> S -> outcome pyval * S) (s : S)
    (req : request) (server_id : string) (id body : pyval),
    authorizes_first req (run backend (index req server_id) s)
    ∧ authorizes_first req (run backend (show req server_id id) s)
    ∧ authorizes_first req (run backend (create req server_id body) s)
    ∧ authorizes_first req (run backend (delete req server_id id) s)
    ∧ trace (run backend (update req server_id id body) s) = [].
Proof.
  intros S backend s req server_id id body. unfold authorizes_first.
  repeat split.
  - unfold index, _items. exec. cbn [after trace]. by eexists.
  - unfold show. exec. cbn [after trace]. by eexists.
  - unfold create. exec. cbn [after trace]. by eexists.
  - unfold delete. exec. cbn [after trace]. by eexists.
Qed.

(** X21: the check is a gate: when it raises, [index], [show], [create]
    and [delete] stop there with the gate's exception, unchanged: no
    compute or network call is made and nothing is logged. *)
Lemma refused_call_stops :
  ∀ (S : Type) (backend : call -> S -> outcome pyval * S) (s0 s1 : S)
    (req : request) (server_id : string) (id body : pyval) (e : exn),
    backend (authorize (nova_context (environ req))) s0 = (Exc e, s1) →
    let stopped :=
      Result (Exc e) [ Called (authorize (nova_context (environ req))) ] s1 in
    run backend (index req server_id) s0 = stopped
    ∧ run backend (show req server_id id) s0 = stopped
    ∧ run backend (create req server_id body) s0 = stopped
    ∧ run backend (delete req server_id id) s0 = stopped.
Proof.
  intros S backend s0 s1 req server_id id body e Hauth stopped.
  repeat split.
  - unfold index, _items. exec. by answer Hauth.
  - unfold show. exec. by answer Hauth.
  - unfold create. exec. by answer Hauth.
  - unfold delete. exec. by answer Hauth.
Qed.

(** * The properties on the example backend *)

(** [show] of [p1] on [srv-1], which owns it. *)
Lemma show_returns_view_of_owned_port_witness :
  run fake (show req0 "srv-1" (PStr "p1")) w1 =
    Result
      (Val (Dict {[ "interface_attachment" :=
         PDict {[ "net_id" := PStr "net-A";
                  "port_id" := PStr "p1";
                  "mac_addr" := PStr "fa:16:3e:00:00:01";
                  "port_state" := PStr "ACTIVE";
                  "fixed_ips" := default PNone (port_p1 !! "fixed_ips") ]} ]}))
      [ Called (authorize (PStr "admin"));
        Called (compute_api_get (PStr "admin") "srv-1");
        Called (network_api_show_port (PStr "admin") (PStr "p1")) ]
      w1.
Proof.
  apply (show_returns_view_of_owned_port world fake w1 w1 w1 w1 req0
           "srv-1" (PStr "p1") PNone srv1 (PDict {[ "port" := PDict port_p1 ]})
           (PStr "net-A") (PStr "fa:16:3e:00:00:01") (PStr "ACTIVE") port_p1);
    reflexivity.
Defined.

(** [show] of [q7], a port of [srv-2], asked for on [srv-1]. *)
Lemma show_hides_ports_of_other_instances_witness :
  run fake (show req0 "srv-1" (PStr "q7")) w1 =
    Result (Exc (exc HTTPNotFound None))
      [ Called (authorize (PStr "admin"));
        Called (compute_api_get (PStr "admin") "srv-1");
        Called (network_api_show_port (PStr "admin") (PStr "q7")) ]
      w1.
Proof.
  apply (proj1 (show_hides_ports_of_other_instances world fake w1 req0
                  "srv-1" (PStr "q7"))
           w1 w1 w1 PNone srv1 (PDict {[ "port" := PDict port_q7 ]})
           (PDict port_q7) (PStr "srv-2"));
    reflexivity.
Defined.

(** [create] with both [net_id] and [port_id], and with an address but no
    [net_id]. *)
Lemma create_rejects_conflicting_parameters_witness :
  run fake
    (create req0 "srv-1"
       (body_of {[ "net_id" := PStr "net-A"; "port_id" := PStr "p1" ]})) w0
  = Result (Exc (exc HTTPBadRequest None))
      [ Called (authorize (PStr "admin")) ] w0
  ∧ status (returned (run fake
      (create req0 "srv-1"
         (body_of {[ "fixed_ips" :=
            PList [PDict {[ "ip_address" := PStr "10.0.0.9" ]}] ]})) w0))
    = Some 400.
Proof.
  split.
  - apply (create_rejects_conflicting_parameters world fake w0 w0 req0
             "srv-1" PNone
             {[ "interface_attachment" :=
                  PDict {[ "net_id" := PStr "net-A";
                           "port_id" := PStr "p1" ]} ]}
             {[ "net_id" := PStr "net-A"; "port_id" := PStr "p1" ]});
      [reflexivity | reflexivity | left; split; reflexivity].
  - apply (create_rejects_conflicting_parameters world fake w0 w0 req0
             "srv-1" PNone
             {[ "interface_attachment" :=
                  PDict {[ "fixed_ips" :=
                    PList [PDict {[ "ip_address" := PStr "10.0.0.9" ]}] ]} ]}
             {[ "fixed_ips" :=
                  PList [PDict {[ "ip_address" := PStr "10.0.0.9" ]}] ]});
      [reflexivity | reflexivity |].
    right. split; [reflexivity|].
    exists {[ "ip_address" := PStr "10.0.0.9" ]}, [], (PStr "10.0.0.9").
    repeat split; reflexivity.
Defined.

(** C2 fails as stated: a [fixed_ips] whose address is the empty string,
    with no [net_id], is not rejected; the instance is looked up, the
    interface attached, and the response is a 200. *)
Lemma create_accepts_empty_address_without_net_id :
  getitem (body_of {[ "fixed_ips" :=
             PList [PDict {[ "ip_address" := PStr "" ]}] ]})
    "interface_attachment"
  = Val (PDict {[ "fixed_ips" :=
                    PList [PDict {[ "ip_address" := PStr "" ]}] ]})
  ∧ status (returned (run fake
      (create req0 "srv-1"
         (body_of {[ "fixed_ips" :=
            PList [PDict {[ "ip_address" := PStr "" ]}] ]})) w0))
    = Some 200
  ∧ trace (run fake
      (create req0 "srv-1"
         (body_of {[ "fixed_ips" :=
            PList [PDict {[ "ip_address" := PStr "" ]}] ]})) w0)
    = [ Called (authorize (PStr "admin"));
        Called (compute_api_get (PStr "admin") "srv-1");
        Logged (LOG_audit "Attach interface to %s" [] srv1);
        Called (compute_api_attach_interface (PStr "admin") srv1
                  PNone PNone (PStr ""));
        Called (authorize (PStr "admin"));
        Called (compute_api_get (PStr "admin") "srv-1");
        Called (network_api_show_port (PStr "admin") (PStr "p1")) ].
Proof. repeat split; by vm_compute. Qed.

(** [create] with a [net_id] on [srv-1]: the response is that of [show]
    on the port the driver made. *)
Lemma create_returns_what_show_returns_witness :
  returned (run fake
    (create req0 "srv-1" (body_of {[ "net_id" := PStr "net-A" ]})) w0)
  = returned (run fake (show req0 "srv-1" (PStr "p1")) w1).
Proof.
  apply (create_returns_what_show_returns world fake w0 w0 w0 w1 req0
           "srv-1" (body_of {[ "net_id" := PStr "net-A" ]})
           (PStr "net-A") PNone PNone PNone srv1 (PDict port_p1) (PStr "p1"));
    reflexivity.
Defined.

(** [create] without a body, and with a body that is not an attachment. *)
Lemma create_body_absent_or_without_attachment_witness :
  (∃ tr,
     trace (run fake (create req0 "srv-1" PNone) w0) =
       Called (authorize (PStr "admin"))
       :: Called (compute_api_get (PStr "admin") "srv-1")
       :: Logged (LOG_audit "Attach interface to %s" [] srv1)
       :: Called (compute_api_attach_interface (PStr "admin") srv1
                    PNone PNone PNone)
       :: tr)
  ∧ run fake (create req0 "srv-1" (PDict {[ "server" := PStr "x" ]})) w0 =
      Result (Exc (exc KeyError (Some "interface_attachment")))
        [ Called (authorize (PStr "admin")) ] w0.
Proof.
  pose proof (create_body_absent_or_without_attachment world fake w0 w0 req0
                "srv-1" PNone eq_refl) as [Habsent Hother].
  split.
  - apply (Habsent PNone srv1 w0); reflexivity.
  - apply (Hother {[ "server" := PStr "x" ]}); reflexivity.
Defined.

(** A driver without attach and detach support. *)
Lemma not_implemented_error_escapes_as_attribute_error_witness :
  status (returned (run fake (create req0 "srv-1" PNone)
            (with_attach (Exc (exc NotImplementedError None)) w0)))
  = None
  ∧ status (returned (run fake (delete req0 "srv-1" (PStr "p1"))
              (with_detach (Some (exc NotImplementedError None)) w1)))
    = None.
Proof.
  split.
  - pose (w := with_attach (Exc (exc NotImplementedError None)) w0).
    apply (proj1 (not_implemented_error_escapes_as_attribute_error world
                    fake w w w w req0 "srv-1" PNone srv1 None
                    eq_refl eq_refl)
             PNone PNone PNone PNone);
      reflexivity.
  - pose (w := with_detach (Some (exc NotImplementedError None)) w1).
    apply (proj2 (not_implemented_error_escapes_as_attribute_error world
                    fake w w w w req0 "srv-1" PNone srv1 None
                    eq_refl eq_refl)
             (PStr "p1"));
      reflexivity.
Defined.

(** [delete] of [p1]: unknown to the driver, and detached. *)
Lemma delete_port_not_found_or_accepted_witness :
  status (returned (run fake (delete req0 "srv-1" (PStr "p1"))
            (with_detach (Some (exc PortNotFound None)) w1)))
  = Some 404
  ∧ returned (run fake (delete req0 "srv-1" (PStr "p1")) w1)
    = Val (Response 202 "").
Proof.
  split.
  - pose (w := with_detach (Some (exc PortNotFound None)) w1).
    apply (proj1 (delete_port_not_found_or_accepted world fake w w w w req0
                    "srv-1" (PStr "p1") PNone srv1 eq_refl eq_refl)
             None);
      reflexivity.
  - pose proof (proj2 (delete_port_not_found_or_accepted world fake w1 w1 w1
                    (World true (instances w1)
                       (base.delete "p1" (ports w1)) (attach w1) (detach w1))
                    req0 "srv-1" (PStr "p1") PNone srv1 eq_refl eq_refl)
             PNone eq_refl) as [Hrun _].
    by rewrite Hrun.
Defined.

(** [index] when the network service answers with [q7], [p1] and [q7]
    again: the three views come back in that order, and [index] itself
    drops none of them. *)
Lemma index_lists_views_in_order_witness :
  run scripted (index req0 "srv-1")
    [ Val PNone; Val srv1;
      Val (PDict {[ "ports" :=
             PList [PDict port_q7; PDict port_p1; PDict port_q7] ]}) ]
  = Result
      (Val (Dict {[ "interface_attachments" :=
         PList [ PDict {[ "net_id" := PStr "net-B";
                          "port_id" := PStr "q7";
                          "mac_addr" := PStr "fa:16:3e:00:00:07";
                          "port_state" := PStr "DOWN";
                          "fixed_ips" := PNone ]};
                 PDict {[ "net_id" := PStr "net-A";
                          "port_id" := PStr "p1";
                          "mac_addr" := PStr "fa:16:3e:00:00:01";
                          "port_state" := PStr "ACTIVE";
                          "fixed_ips" :=
                            PList [PDict {[ "ip_address" :=
                                              PStr "10.0.0.5" ]}] ]};
                 PDict {[ "net_id" := PStr "net-B";
                          "port_id" := PStr "q7";
                          "mac_addr" := PStr "fa:16:3e:00:00:07";
                          "port_state" := PStr "DOWN";
                          "fixed_ips" := PNone ]} ] ]}))
      [ Called (authorize (PStr "admin"));
        Called (compute_api_get (PStr "admin") "srv-1");
        Called (network_api_list_ports (PStr "admin")
                  {[ "device_id" := PStr "srv-1" ]}) ]
      [].
Proof.
  destruct (index_lists_views_in_order _ scripted
           [ Val PNone; Val srv1;
             Val (PDict {[ "ports" :=
               PList [PDict port_q7; PDict port_p1; PDict port_q7] ]}) ]
           [ Val srv1;
             Val (PDict {[ "ports" :=
               PList [PDict port_q7; PDict port_p1; PDict port_q7] ]}) ]
           [ Val (PDict {[ "ports" :=
               PList [PDict port_q7; PDict port_p1; PDict port_q7] ]}) ]
           []
           req0 "srv-1" PNone srv1 (PStr "srv-1")
           (PDict {[ "ports" :=
              PList [PDict port_q7; PDict port_p1; PDict port_q7] ]})
           [PDict port_q7; PDict port_p1; PDict port_q7]
           [ PDict {[ "net_id" := PStr "net-B";
                      "port_id" := PStr "q7";
                      "mac_addr" := PStr "fa:16:3e:00:00:07";
                      "port_state" := PStr "DOWN";
                      "fixed_ips" := PNone ]};
             PDict {[ "net_id" := PStr "net-A";
                      "port_id" := PStr "p1";
                      "mac_addr" := PStr "fa:16:3e:00:00:01";
                      "port_state" := PStr "ACTIVE";
                      "fixed_ips" :=
                        PList [PDict {[ "ip_address" :=
                                          PStr "10.0.0.5" ]}] ]};
             PDict {[ "net_id" := PStr "net-B";
                      "port_id" := PStr "q7";
                      "mac_addr" := PStr "fa:16:3e:00:00:07";
                      "port_state" := PStr "DOWN";
                      "fixed_ips" := PNone ]} ])
    as [Hrun _].
  - reflexivity.
  - reflexivity.
  - reflexivity.
  - reflexivity.
  - reflexivity.
  - repeat (constructor; [reflexivity|]). constructor.
  - exact Hrun.
Defined.

(** C3 fails as stated: [update] responds, with 501, without any
    authorization check. *)
Lemma update_responds_without_authorization :
  trace (run fake (update req0 "srv-1" (PStr "p1") PNone) w0) = []
  ∧ status (returned (run fake (update req0 "srv-1" (PStr "p1") PNone) w0))
    = Some 501.
Proof. by split. Qed.

(** * Further properties of the module *)

(** ** The view translation *)

(** What a successful translation was given and what it returns. *)
Lemma translate_Val_inv (port_info view : pyval) :
  _translate_interface_attachment_view port_info = Val view →
  ∃ (port : gmap string pyval) (net i mac st : pyval),
    port_info = PDict port
    ∧ port !! "network_id" = Some net
    ∧ port !! "id" = Some i
    ∧ port !! "mac_address" = Some mac
    ∧ port !! "status" = Some st
    ∧ view = PDict {[ "net_id" := net;
                      "port_id" := i;
                      "mac_addr" := mac;
                      "port_state" := st;
                      "fixed_ips" := default PNone (port !! "fixed_ips") ]}.
Proof.
  unfold _translate_interface_attachment_view.
  destruct port_info as [| | | | |port]; try done.
  cbn [getitem get mbind outcome_bind].
  destruct (port !! "network_id") as [net|] eqn:Hnet; [|done].
  destruct (port !! "id") as [i|] eqn:Hid; [|done].
  destruct (port !! "mac_address") as [mac|] eqn:Hmac; [|done].
  destruct (port !! "status") as [st|] eqn:Hst; [|done].
  intros [= <-]. by exists port, net, i, mac, st.
Qed.

(** X1: the translation succeeds exactly on a dictionary that has
    [network_id], [id], [mac_address] and [status]; its result is then
    the five-key view of these fields and of [fixed_ips] ([None] when the
    port has none). *)
Theorem translate_view_iff :
  ∀ port_info view : pyval,
    _translate_interface_attachment_view port_info = Val view ↔
    ∃ (port : gmap string pyval) (net i mac st : pyval),
      port_info = PDict port
      ∧ port !! "network_id" = Some net
      ∧ port !! "id" = Some i
      ∧ port !! "mac_address" = Some mac
      ∧ port !! "status" = Some st
      ∧ view = PDict {[ "net_id" := net;
                        "port_id" := i;
                        "mac_addr" := mac;
                        "port_state" := st;
                        "fixed_ips" := default PNone (port !! "fixed_ips") ]}.
Proof.
  intros port_info view. split.
  - apply translate_Val_inv.
  - intros (port & net & i & mac & st & -> & Hnet & Hid & Hmac & Hst & ->).
    by apply translate_port.
Qed.

(** X2: a view has the five keys [net_id], [port_id], [mac_addr],
    [port_state] and [fixed_ips] and no other: whatever else the port
    record holds ([device_id], a tenant, binding details) is not in it. *)
Theorem view_has_exactly_five_keys :
  ∀ port_info view : pyval,
    _translate_interface_attachment_view port_info = Val view →
    ∃ d : gmap string pyval,
      view = PDict d
      ∧ dom d = view_keys
      ∧ ∀ k : string, k ∉ view_keys → d !! k = None.
Proof.
  intros port_info view
    (port & net & i & mac & st & -> & _ & _ & _ & _ & ->)%translate_Val_inv.
  eexists. split; [done|].
  assert (dom ({[ "net_id" := net; "port_id" := i; "mac_addr" := mac;
                  "port_state" := st;
                  "fixed_ips" := default PNone (port !! "fixed_ips") ]}
               : gmap string pyval) = view_keys) as Hdom.
  { rewrite !dom_insert_L, dom_singleton_L. unfold view_keys. set_solver. }
  split; [done|].
  intros k Hk. apply not_elem_of_dom. by rewrite Hdom.
Qed.

(** X3: on a dictionary, the translation raises the KeyError of the first
    mandatory field that is missing, in the order [network_id], [id],
    [mac_address], [status]; on anything that is not a dictionary it
    raises TypeError.  A missing [fixed_ips] is no error. *)
Theorem translate_missing_field :
  ∀ port : gmap string pyval,
    (port !! "network_id" = None →
     _translate_interface_attachment_view (PDict port)
       = Exc (exc KeyError (Some "network_id")))
    ∧ (is_Some (port !! "network_id") → port !! "id" = None →
       _translate_interface_attachment_view (PDict port)
         = Exc (exc KeyError (Some "id")))
    ∧ (is_Some (port !! "network_id") → is_Some (port !! "id") →
       port !! "mac_address" = None →
       _translate_interface_attachment_view (PDict port)
         = Exc (exc KeyError (Some "mac_address")))
    ∧ (is_Some (port !! "network_id") → is_Some (port !! "id") →
       is_Some (port !! "mac_address") → port !! "status" = None →
       _translate_interface_attachment_view (PDict port)
         = Exc (exc KeyError (Some "status")))
    ∧ (∀ v : pyval,
         (∀ d, v ≠ PDict d) →
         _translate_interface_attachment_view v = Exc (exc TypeError None)).
Proof.
  intros port. unfold _translate_interface_attachment_view.
  repeat split.
  - intros H. cbn. by rewrite H.
  - intros [? H1] H. cbn. by rewrite H1, H.
  - intros [? H1] [? H2] H. cbn. by rewrite H1, H2, H.
  - intros [? H1] [? H2] [? H3] H. cbn. by rewrite H1, H2, H3, H.
  - intros v Hv. destruct v as [| | | | |d]; try done. by destruct (Hv d).
Qed.

Lemma view_has_exactly_five_keys_witness :
  ∃ d : gmap string pyval,
    PDict {[ "net_id" := PStr "net-B";
             "port_id" := PStr "q7";
             "mac_addr" := PStr "fa:16:3e:00:00:07";
             "port_state" := PStr "DOWN";
             "fixed_ips" := default PNone (port_q7 !! "fixed_ips") ]}
    = PDict d
    ∧ dom d = view_keys
    ∧ ∀ k : string, k ∉ view_keys → d !! k = None.
Proof.
  apply (view_has_exactly_five_keys (PDict port_q7)). reflexivity.
Defined.

Lemma translate_missing_field_witness :
  _translate_interface_attachment_view (PDict port_nomac)
    = Exc (exc KeyError (Some "mac_address"))
  ∧ _translate_interface_attachment_view (PStr "p1")
    = Exc (exc TypeError None).
Proof.
  pose proof (translate_missing_field port_nomac)
    as (_ & _ & Hmac & _ & Hother).
  split.
  - apply Hmac; [by eexists | by eexists | reflexivity].
  - apply Hother. intros d. discriminate.
Defined.

(** ** The instance lookup *)

(** X4: when the call is authorized and [compute_api.get] raises an
    InstanceNotFound carrying the text [m], [index], [show] and [delete]
    raise HTTPNotFound (404) whose explanation is [m], and stop there:
    the network service is not asked, nothing is detached, nothing
    logged. *)
Theorem missing_instance_is_not_found :
  ∀ (S : Type) (backend : call -> S -> outcome pyval * S) (s0 s1 s2 : S)
    (req : request) (server_id : string) (id granted : pyval)
    (m : string),
    backend (authorize (nova_context (environ req))) s0 = (Val granted, s1) →
    backend (compute_api_get (nova_context (environ req)) server_id) s1
      = (Exc (exc InstanceNotFound (Some m)), s2) →
    run backend (index req server_id) s0 =
      Result (Exc (exc HTTPNotFound (Some m)))
        [ Called (authorize (nova_context (environ req)));
          Called (compute_api_get (nova_context (environ req)) server_id) ]
        s2
    ∧ run backend (show req server_id id) s0 =
        Result (Exc (exc HTTPNotFound (Some m)))
          [ Called (authorize (nova_context (environ req)));
            Called (compute_api_get (nova_context (environ req)) server_id) ]
          s2
    ∧ run backend (delete req server_id id) s0 =
        Result (Exc (exc HTTPNotFound (Some m)))
          [ Called (authorize (nova_context (environ req)));
            Called (compute_api_get (nova_context (environ req)) server_id) ]
          s2.
Proof.
  intros S backend s0 s1 s2 req server_id id granted m Hauth Hget.
  repeat split.
  - unfold index, _items. exec. answer Hauth. by answer Hget.
  - unfold show. exec. answer Hauth. by answer Hget.
  - unfold delete. exec. answer Hauth. by answer Hget.
Qed.

Lemma missing_instance_is_not_found_witness :
  run fake (index req0 "srv-9") w1 =
    Result (Exc (exc HTTPNotFound (Some "Instance not found")))
      [ Called (authorize (PStr "admin"));
        Called (compute_api_get (PStr "admin") "srv-9") ] w1
  ∧ status (returned (run fake (delete req0 "srv-9" (PStr "p1")) w1))
    = Some 404.
Proof.
  pose proof (missing_instance_is_not_found world fake w1 w1 w1 req0 "srv-9"
                (PStr "p1") PNone "Instance not found"
                eq_refl eq_refl) as (Hindex & _ & Hdelete).
  split; [exact Hindex | by rewrite Hdelete].
Defined.

(** ** show, when the port is unknown *)

(** X5: when the call is authorized, the instance exists and
    [network_api.show_port] raises an exception that is a NotFound,
    [show] raises HTTPNotFound (404) with no explanation: an unknown port
    and a port of another instance get the same answer. *)
Theorem show_unknown_port_is_not_found :
  ∀ (S : Type) (backend : call -> S -> outcome pyval * S) (s0 s1 s2 s3 : S)
    (req : request) (server_id : string) (port_id granted instance : pyval)
    (e : exn),
    backend (authorize (nova_context (environ req))) s0 = (Val granted, s1) →
    backend (compute_api_get (nova_context (environ req)) server_id) s1
      = (Val instance, s2) →
    backend (network_api_show_port (nova_context (environ req)) port_id) s2
      = (Exc e, s3) →
    isinstance e NotFound = true →
    run backend (show req server_id port_id) s0 =
      Result (Exc (exc HTTPNotFound None))
        [ Called (authorize (nova_context (environ req)));
          Called (compute_api_get (nova_context (environ req)) server_id);
          Called (network_api_show_port (nova_context (environ req)) port_id) ]
        s3.
Proof.
  intros S backend s0 s1 s2 s3 req server_id port_id granted instance e
    Hauth Hget Hport He.
  unfold show. exec. answer Hauth. answer Hget. answer Hport.
  rewrite He. by exec.
Qed.

Lemma show_unknown_port_is_not_found_witness :
  run fake (show req0 "srv-1" (PStr "zz")) w1 =
    Result (Exc (exc HTTPNotFound None))
      [ Called (authorize (PStr "admin"));
        Called (compute_api_get (PStr "admin") "srv-1");
        Called (network_api_show_port (PStr "admin") (PStr "zz")) ]
      w1.
Proof.
  apply (show_unknown_port_is_not_found world fake w1 w1 w1 w1 req0 "srv-1"
           (PStr "zz") PNone srv1 (exc PortNotFound (Some "Port not found")));
    reflexivity.
Defined.

(** ** Reads stay reads *)

(** X6: whatever the backend answers, [index] and [show] make at most
    three calls, and each is the authorization check or a lookup
    ([compute_api.get], [show_port], [list_ports]): they never attach or
    detach an interface and write no log record. *)
Theorem index_and_show_only_read :
  ∀ (S : Type) (backend : call -> S -> outcome pyval * S) (s : S)
    (req : request) (server_id : string) (id : pyval),
    Forall (λ ev, read_only ev = true)
      (trace (run backend (index req server_id) s))
    ∧ (length (trace (run backend (index req server_id) s)) ≤ 3)%nat
    ∧ Forall (λ ev, read_only ev = true)
        (trace (run backend (show req server_id id) s))
    ∧ (length (trace (run backend (show req server_id id) s)) ≤ 3)%nat.
Proof.
  intros S backend s req server_id id.
  assert (∀ (A : Type) (r : result S A) (ev : event) (n : nat),
            read_only ev = true →
            Forall (λ ev, read_only ev = true) (trace r)
            ∧ (length (trace r) ≤ n)%nat →
            Forall (λ ev, read_only ev = true) (trace (after ev r))
            ∧ (length (trace (after ev r)) ≤ Datatypes.S n)%nat) as Hstep.
  { intros A r ev n Hev [Hall Hlen]. cbn [after trace length].
    split; [by constructor | lia]. }
  assert (∀ n : nat,
            Forall (λ ev, read_only ev = true) []
            ∧ (length ([] : list event) ≤ n)%nat) as Hend.
  { intros. cbn. split; [constructor | lia]. }
  assert (Forall (λ ev, read_only ev = true)
            (trace (run backend (index req server_id) s))
          ∧ (length (trace (run backend (index req server_id) s)) ≤ 3)%nat)
    as Hindex.
  { unfold index, _items. exec. apply Hstep; [done|].
    destruct (backend (authorize _) s) as [[granted|e] s1]; exec;
      [|apply Hend].
    apply Hstep; [done|].
    destruct (backend (compute_api_get _ _) s1) as [[instance|e] s2]; exec.
    2:{ destruct (isinstance e InstanceNotFound); exec; [|apply Hend].
        destruct (format_message e); exec; apply Hend. }
    destruct (getitem instance "uuid") as [uuid|e]; exec; [|apply Hend].
    apply Hstep; [done|].
    destruct (backend (network_api_list_ports _ _) s2) as [[data|e] s3]; exec.
    2:{ destruct (isinstance e NotFound); exec; [apply Hend|].
        destruct (isinstance e NotImplementedError); exec; apply Hend. }
    destruct (get data "ports" (PList [])) as [ports|e]; exec; [|apply Hend].
    destruct (iter ports) as [elements|e]; exec; [|apply Hend].
    destruct (comprehension _ elements); exec; apply Hend. }
  assert (Forall (λ ev, read_only ev = true)
            (trace (run backend (show req server_id id) s))
          ∧ (length (trace (run backend (show req server_id id) s)) ≤ 3)%nat)
    as Hshow.
  { unfold show. exec. apply Hstep; [done|].
    destruct (backend (authorize _) s) as [[granted|e] s1]; exec;
      [|apply Hend].
    apply Hstep; [done|].
    destruct (backend (compute_api_get _ _) s1) as [[instance|e] s2]; exec.
    2:{ destruct (isinstance e InstanceNotFound); exec; [|apply Hend].
        destruct (format_message e); exec; apply Hend. }
    apply Hstep; [done|].
    destruct (backend (network_api_show_port _ _) s2) as [[port_info|e] s3];
      exec.
    2:{ destruct (isinstance e NotFound); exec; apply Hend. }
    destruct (getitem port_info "port") as [port|e]; exec; [|apply Hend].
    destruct (getitem port "device_id") as [device_id|e]; exec; [|apply Hend].
    destruct (ne_str device_id server_id); exec; [apply Hend|].
    destruct (_translate_interface_attachment_view port); exec; apply Hend. }
  destruct Hindex, Hshow. by repeat split.
Qed.

(** ** index, off the main path *)

(** X7: when the call is authorized and the instance exists, [index]
    raises HTTPNotFound (404) without explanation if [list_ports] raises
    a NotFound, and HTTPNotImplemented (501) with the fixed text "Network
    driver does not support this function." if [list_ports] raises
    NotImplementedError. *)
Theorem index_maps_network_errors :
  ∀ (S : Type) (backend : call -> S -> outcome pyval * S) (s0 s1 s2 s3 : S)
    (req : request) (server_id : string) (granted instance uuid : pyval),
    backend (authorize (nova_context (environ req))) s0 = (Val granted, s1) →
    backend (compute_api_get (nova_context (environ req)) server_id) s1
      = (Val instance, s2) →
    getitem instance "uuid" = Val uuid →
    (∀ e : exn,
       backend (network_api_list_ports (nova_context (environ req))
                  {[ "device_id" := uuid ]}) s2
         = (Exc e, s3) →
       isinstance e NotFound = true →
       run backend (index req server_id) s0 =
         Result (Exc (exc HTTPNotFound None))
           [ Called (authorize (nova_context (environ req)));
             Called (compute_api_get (nova_context (environ req)) server_id);
             Called (network_api_list_ports (nova_context (environ req))
                       {[ "device_id" := uuid ]}) ]
           s3)
    ∧ (∀ m : option string,
         backend (network_api_list_ports (nova_context (environ req))
                    {[ "device_id" := uuid ]}) s2
           = (Exc (exc NotImplementedError m), s3) →
         run backend (index req server_id) s0 =
           Result
             (Exc (exc HTTPNotImplemented
                     (Some "Network driver does not support this function.")))
             [ Called (authorize (nova_context (environ req)));
               Called (compute_api_get (nova_context (environ req)) server_id);
               Called (network_api_list_ports (nova_context (environ req))
                         {[ "device_id" := uuid ]}) ]
             s3
         ∧ status (returned (run backend (index req server_id) s0))
           = Some 501).
Proof.
  intros S backend s0 s1 s2 s3 req server_id granted instance uuid
    Hauth Hget Huuid.
  split.
  - intros e Hlist He.
    unfold index, _items. exec. answer Hauth. answer Hget. answer Huuid.
    answer Hlist. rewrite He. by exec.
  - intros m Hlist.
    assert (run backend (index req server_id) s0 =
           Result
             (Exc (exc HTTPNotImplemented
                     (Some "Network driver does not support this function.")))
             [ Called (authorize (nova_context (environ req)));
               Called (compute_api_get (nova_context (environ req)) server_id);
               Called (network_api_list_ports (nova_context (environ req))
                         {[ "device_id" := uuid ]}) ]
             s3) as Hrun.
    { unfold index, _items. exec. answer Hauth. answer Hget. answer Huuid.
      by answer Hlist. }
    by rewrite Hrun.
Qed.

(** X8: when the call is authorized, the instance exists and what
    [list_ports] returns is a dictionary without a [ports] key, [index]
    answers an empty list of attachments, not an error. *)
Theorem index_without_ports_key_is_empty :
  ∀ (S : Type) (backend : call -> S -> outcome pyval * S) (s0 s1 s2 s3 : S)
    (req : request) (server_id : string) (granted instance uuid : pyval)
    (data : gmap string pyval),
    backend (authorize (nova_context (environ req))) s0 = (Val granted, s1) →
    backend (compute_api_get (nova_context (environ req)) server_id) s1
      = (Val instance, s2) →
    getitem instance "uuid" = Val uuid →
    backend (network_api_list_ports (nova_context (environ req))
               {[ "device_id" := uuid ]}) s2
      = (Val (PDict data), s3) →
    data !! "ports" = None →
    run backend (index req server_id) s0 =
      Result (Val (Dict {[ "interface_attachments" := PList [] ]}))
        [ Called (authorize (nova_context (environ req)));
          Called (compute_api_get (nova_context (environ req)) server_id);
          Called (network_api_list_ports (nova_context (environ req))
                    {[ "device_id" := uuid ]}) ]
        s3.
Proof.
  intros S backend s0 s1 s2 s3 req server_id granted instance uuid data
    Hauth Hget Huuid Hlist Hports.
  unfold index, _items. exec. answer Hauth. answer Hget. answer Huuid.
  answer Hlist. rewrite Hports. cbn [default]. exec. by cbn [comprehension].
Qed.

(** A comprehension raises what its first failing element raises. *)
Lemma comprehension_Exc {A B} (f : A -> outcome B)
    (done_ : list A) (x : A) (rest : list A) (ys : list B) (e : exn) :
  comprehension f done_ = Val ys →
  f x = Exc e →
  comprehension f (done_ ++ x :: rest)%list = Exc e.
Proof.
  revert ys. induction done_ as [|y l IH]; intros ys; cbn.
  - intros _ Hx. by rewrite Hx.
  - destruct (f y) as [b|e']; cbn; [|done].
    destruct (comprehension f l) as [bs|e'] eqn:Hl; cbn; [|done].
    intros _ Hx. by rewrite (IH bs eq_refl Hx).
Qed.

(** X9: one port that cannot be translated loses the whole listing: when
    the ports before it translate and it raises, [index] raises that
    exception (the KeyError of its missing field) and returns no partial
    list. *)
Theorem index_fails_on_first_bad_port :
  ∀ (S : Type) (backend : call -> S -> outcome pyval * S) (s0 s1 s2 s3 : S)
    (req : request) (server_id : string)
    (granted instance uuid data bad : pyval)
    (good rest views : list pyval) (e : exn),
    backend (authorize (nova_context (environ req))) s0 = (Val granted, s1) →
    backend (compute_api_get (nova_context (environ req)) server_id) s1
      = (Val instance, s2) →
    getitem instance "uuid" = Val uuid →
    backend (network_api_list_ports (nova_context (environ req))
               {[ "device_id" := uuid ]}) s2
      = (Val data, s3) →
    get data "ports" (PList []) = Val (PList (good ++ bad :: rest)%list) →
    comprehension _translate_interface_attachment_view good = Val views →
    _translate_interface_attachment_view bad = Exc e →
    run backend (index req server_id) s0 =
      Result (Exc e)
        [ Called (authorize (nova_context (environ req)));
          Called (compute_api_get (nova_context (environ req)) server_id);
          Called (network_api_list_ports (nova_context (environ req))
                    {[ "device_id" := uuid ]}) ]
        s3.
Proof.
  intros S backend s0 s1 s2 s3 req server_id granted instance uuid data bad
    good rest views e Hauth Hget Huuid Hlist Hports Hgood Hbad.
  unfold index, _items. exec. answer Hauth. answer Hget. answer Huuid.
  answer Hlist. answer Hports.
  by rewrite (comprehension_Exc _ good bad rest views e Hgood Hbad).
Qed.

(** X10: when the call is authorized and the instance record has no
    [uuid], [index] raises the KeyError of that lookup before the network
    service is asked. *)
Theorem index_instance_without_uuid :
  ∀ (S : Type) (backend : call -> S -> outcome pyval * S) (s0 s1 s2 : S)
    (req : request) (server_id : string) (granted : pyval)
    (instance : gmap string pyval),
    backend (authorize (nova_context (environ req))) s0 = (Val granted, s1) →
    backend (compute_api_get (nova_context (environ req)) server_id) s1
      = (Val (PDict instance), s2) →
    instance !! "uuid" = None →
    run backend (index req server_id) s0 =
      Result (Exc (exc KeyError (Some "uuid")))
        [ Called (authorize (nova_context (environ req)));
          Called (compute_api_get (nova_context (environ req)) server_id) ]
        s2.
Proof.
  intros S backend s0 s1 s2 req server_id granted instance Hauth Hget Huuid.
  unfold index, _items. exec. answer Hauth. answer Hget. by answer Huuid.
Qed.

Lemma index_maps_network_errors_witness :
  run scripted (index req0 "srv-1")
    [ Val PNone; Val srv1; Exc (exc PortNotFound None) ]
  = Result (Exc (exc HTTPNotFound None))
      [ Called (authorize (PStr "admin"));
        Called (compute_api_get (PStr "admin") "srv-1");
        Called (network_api_list_ports (PStr "admin")
                  {[ "device_id" := PStr "srv-1" ]}) ]
      []
  ∧ status (returned (run scripted (index req0 "srv-1")
              [ Val PNone; Val srv1; Exc (exc NotImplementedError None) ]))
    = Some 501.
Proof.
  split.
  - apply (proj1 (index_maps_network_errors _ scripted
                    [ Val PNone; Val srv1; Exc (exc PortNotFound None) ]
                    [ Val srv1; Exc (exc PortNotFound None) ]
                    [ Exc (exc PortNotFound None) ] []
                    req0 "srv-1" PNone srv1 (PStr "srv-1")
                    eq_refl eq_refl eq_refl)
             (exc PortNotFound None));
      reflexivity.
  - apply (proj2 (index_maps_network_errors _ scripted
                    [ Val PNone; Val srv1; Exc (exc NotImplementedError None) ]
                    [ Val srv1; Exc (exc NotImplementedError None) ]
                    [ Exc (exc NotImplementedError None) ] []
                    req0 "srv-1" PNone srv1 (PStr "srv-1")
                    eq_refl eq_refl eq_refl)
             None);
      reflexivity.
Defined.

Lemma index_without_ports_key_is_empty_witness :
  run scripted (index req0 "srv-1")
    [ Val PNone; Val srv1; Val (PDict {[ "count" := PInt 0 ]}) ]
  = Result (Val (Dict {[ "interface_attachments" := PList [] ]}))
      [ Called (authorize (PStr "admin"));
        Called (compute_api_get (PStr "admin") "srv-1");
        Called (network_api_list_ports (PStr "admin")
                  {[ "device_id" := PStr "srv-1" ]}) ]
      [].
Proof.
  apply (index_without_ports_key_is_empty _ scripted
           [ Val PNone; Val srv1; Val (PDict {[ "count" := PInt 0 ]}) ]
           [ Val srv1; Val (PDict {[ "count" := PInt 0 ]}) ]
           [ Val (PDict {[ "count" := PInt 0 ]}) ] []
           req0 "srv-1" PNone srv1 (PStr "srv-1") {[ "count" := PInt 0 ]});
    reflexivity.
Defined.

Lemma index_fails_on_first_bad_port_witness :
  run scripted (index req0 "srv-1")
    [ Val PNone; Val srv1;
      Val (PDict {[ "ports" :=
             PList [PDict port_p1; PDict port_nomac; PDict port_q7] ]}) ]
  = Result (Exc (exc KeyError (Some "mac_address")))
      [ Called (authorize (PStr "admin"));
        Called (compute_api_get (PStr "admin") "srv-1");
        Called (network_api_list_ports (PStr "admin")
                  {[ "device_id" := PStr "srv-1" ]}) ]
      [].
Proof.
  apply (index_fails_on_first_bad_port _ scripted
           [ Val PNone; Val srv1;
             Val (PDict {[ "ports" :=
               PList [PDict port_p1; PDict port_nomac; PDict port_q7] ]}) ]
           [ Val srv1;
             Val (PDict {[ "ports" :=
               PList [PDict port_p1; PDict port_nomac; PDict port_q7] ]}) ]
           [ Val (PDict {[ "ports" :=
               PList [PDict port_p1; PDict port_nomac; PDict port_q7] ]}) ]
           []
           req0 "srv-1" PNone srv1 (PStr "srv-1")
           (PDict {[ "ports" :=
              PList [PDict port_p1; PDict port_nomac; PDict port_q7] ]})
           (PDict port_nomac) [PDict port_p1] [PDict port_q7]
           [ PDict {[ "net_id" := PStr "net-A";
                      "port_id" := PStr "p1";
                      "mac_addr" := PStr "fa:16:3e:00:00:01";
                      "port_state" := PStr "ACTIVE";
                      "fixed_ips" :=
                        PList [PDict {[ "ip_address" := PStr "10.0.0.5" ]}]
                   ]} ]
           (exc KeyError (Some "mac_address")));
    reflexivity.
Defined.

Lemma index_instance_without_uuid_witness :
  run scripted (index req0 "srv-1")
    [ Val PNone; Val (PDict {[ "name" := PStr "vm" ]}) ]
  = Result (Exc (exc KeyError (Some "uuid")))
      [ Called (authorize (PStr "admin"));
        Called (compute_api_get (PStr "admin") "srv-1") ]
      [].
Proof.
  apply (index_instance_without_uuid _ scripted
           [ Val PNone; Val (PDict {[ "name" := PStr "vm" ]}) ]
           [ Val (PDict {[ "name" := PStr "vm" ]}) ] []
           req0 "srv-1" PNone {[ "name" := PStr "vm" ]});
    reflexivity.
Defined.

(** ** create: what is rejected, what is ignored, what is passed on *)

(** X11: for an authorized [create] whose body could be read, the
    request is rejected with HTTPBadRequest right after the authorization
    check exactly when the parameters conflict ([net_id] with [port_id],
    or an address without [net_id]); otherwise the next thing [create]
    does is look the instance up. *)
Theorem create_rejects_exactly_conflicts :
  ∀ (S : Type) (backend : call -> S -> outcome pyval * S) (s0 s1 : S)
    (req : request) (server_id : string)
    (body network_id port_id req_ip granted : pyval),
    backend (authorize (nova_context (environ req))) s0 = (Val granted, s1) →
    create_params body = Ret (network_id, port_id, req_ip) →
    (conflicting network_id port_id req_ip = true →
     run backend (create req server_id body) s0 =
       Result (Exc (exc HTTPBadRequest None))
         [ Called (authorize (nova_context (environ req))) ] s1)
    ∧ (conflicting network_id port_id req_ip = false →
       ∃ tr,
         trace (run backend (create req server_id body) s0) =
           Called (authorize (nova_context (environ req)))
           :: Called (compute_api_get (nova_context (environ req)) server_id)
           :: tr).
Proof.
  intros S backend s0 s1 req server_id body network_id port_id req_ip granted
    Hauth Hparams.
  unfold conflicting. split; intros Hc.
  - unfold create. exec. answer Hauth. rewrite Hparams. exec.
    destruct (truthy network_id && truthy port_id); exec; [done|].
    cbn [orb] in Hc. rewrite Hc. by exec.
  - apply orb_false_elim in Hc as [Hv1 Hv2].
    unfold create. exec. answer Hauth. rewrite Hparams. exec.
    rewrite Hv1, Hv2. exec. cbn [after trace]. by eexists.
Qed.

Lemma create_rejects_exactly_conflicts_witness :
  run fake
    (create req0 "srv-1"
       (body_of {[ "net_id" := PStr "net-A"; "port_id" := PStr "p1" ]})) w0
  = Result (Exc (exc HTTPBadRequest None))
      [ Called (authorize (PStr "admin")) ] w0
  ∧ ∃ tr,
      trace (run fake
               (create req0 "srv-1" (body_of {[ "port_id" := PStr "p1" ]}))
               w0)
      = Called (authorize (PStr "admin"))
        :: Called (compute_api_get (PStr "admin") "srv-1") :: tr.
Proof.
  assert (create_params
            (body_of {[ "net_id" := PStr "net-A"; "port_id" := PStr "p1" ]})
          = Ret (PStr "net-A", PStr "p1", PNone)) as Hboth by reflexivity.
  assert (create_params (body_of {[ "port_id" := PStr "p1" ]})
          = Ret (PNone, PStr "p1", PNone)) as Hport by reflexivity.
  split.
  - apply (proj1 (create_rejects_exactly_conflicts world fake w0 w0 req0
                    "srv-1" _ _ _ _ PNone eq_refl Hboth)).
    reflexivity.
  - apply (proj2 (create_rejects_exactly_conflicts world fake w0 w0 req0
                    "srv-1" _ _ _ _ PNone eq_refl Hport)).
    reflexivity.
Defined.

(** X12: an authorized, accepted [create] on an existing instance calls
    [attach_interface] with the body's [net_id] and [port_id] ([None] for
    a missing one) and with the address of the first entry of
    [fixed_ips]; further entries of [fixed_ips] are not passed on. *)
Theorem create_passes_first_address_only :
  ∀ (S : Type) (backend : call -> S -> outcome pyval * S) (s0 s1 s2 : S)
    (req : request) (server_id : string) (granted instance x : pyval)
    (body attachment first : gmap string pyval) (rest : list pyval),
    backend (authorize (nova_context (environ req))) s0 = (Val granted, s1) →
    backend (compute_api_get (nova_context (environ req)) server_id) s1
      = (Val instance, s2) →
    body !! "interface_attachment" = Some (PDict attachment) →
    attachment !! "fixed_ips" = Some (PList (PDict first :: rest)) →
    first !! "ip_address" = Some x →
    conflicting (default PNone (attachment !! "net_id"))
      (default PNone (attachment !! "port_id")) x = false →
    ∃ tr,
      trace (run backend (create req server_id (PDict body)) s0) =
        Called (authorize (nova_context (environ req)))
        :: Called (compute_api_get (nova_context (environ req)) server_id)
        :: Logged (LOG_audit "Attach interface to %s" [] instance)
        :: Called (compute_api_attach_interface (nova_context (environ req))
                     instance
                     (default PNone (attachment !! "net_id"))
                     (default PNone (attachment !! "port_id")) x)
        :: tr.
Proof.
  intros S backend s0 s1 s2 req server_id granted instance x body attachment
    first rest Hauth Hget Hb Hf Hx Hc.
  destruct (create_params_attachment body attachment Hb)
    as (req_ip & Hparams & Hip).
  rewrite (Hip first rest x Hf Hx) in Hparams.
  apply orb_false_elim in Hc as [Hv1 Hv2].
  unfold create. exec. answer Hauth. rewrite Hparams. exec.
  rewrite Hv1, Hv2. exec. answer Hget. cbn [after trace]. by eexists.
Qed.

Lemma create_passes_first_address_only_witness :
  ∃ tr,
    trace (run fake
      (create req0 "srv-1"
         (body_of {[ "net_id" := PStr "net-A";
                     "fixed_ips" :=
                       PList [ PDict {[ "ip_address" := PStr "10.0.0.9" ]};
                               PDict {[ "ip_address" := PStr "10.0.0.10" ]} ]
                  ]})) w0)
    = Called (authorize (PStr "admin"))
      :: Called (compute_api_get (PStr "admin") "srv-1")
      :: Logged (LOG_audit "Attach interface to %s" [] srv1)
      :: Called (compute_api_attach_interface (PStr "admin") srv1
                   (PStr "net-A") PNone (PStr "10.0.0.9"))
      :: tr.
Proof.
  destruct (create_passes_first_address_only world fake w0 w0 w0 req0 "srv-1"
           PNone srv1 (PStr "10.0.0.9")
           {[ "interface_attachment" :=
                PDict {[ "net_id" := PStr "net-A";
                         "fixed_ips" :=
                           PList [ PDict {[ "ip_address" := PStr "10.0.0.9" ]};
                                   PDict {[ "ip_address" := PStr "10.0.0.10" ]}
                                 ] ]} ]}
           {[ "net_id" := PStr "net-A";
              "fixed_ips" :=
                PList [ PDict {[ "ip_address" := PStr "10.0.0.9" ]};
                        PDict {[ "ip_address" := PStr "10.0.0.10" ]} ] ]}
           {[ "ip_address" := PStr "10.0.0.9" ]}
           [ PDict {[ "ip_address" := PStr "10.0.0.10" ]} ])
    as [tr Htr]; [reflexivity..|].
  exists tr. exact Htr.
Defined.

(** X13: a [fixed_ips] from which no address can be read is ignored, not
    refused: when the attachment has no [fixed_ips], or its [fixed_ips]
    has no element 0 (an empty list, [None], a number), or that element
    has no [ip_address], the parameters are read with [req_ip = None]. *)
Theorem create_ignores_unreadable_fixed_ips :
  ∀ (body attachment : gmap string pyval),
    body !! "interface_attachment" = Some (PDict attachment) →
    attachment !! "fixed_ips" = None
    ∨ (∃ (v : pyval) (e : exn),
         attachment !! "fixed_ips" = Some v ∧ getindex v 0 = Exc e)
    ∨ (∃ (v first : pyval) (e : exn),
         attachment !! "fixed_ips" = Some v
         ∧ getindex v 0 = Val first
         ∧ getitem first "ip_address" = Exc e) →
    create_params (PDict body) =
      Ret (default PNone (attachment !! "net_id"),
           default PNone (attachment !! "port_id"), PNone).
Proof.
  intros body attachment Hb Hcase. unfold create_params.
  rewrite (truthy_dict _ _ _ Hb). exec. answer Hb.
  destruct Hcase as [Hf|[(v & e & Hf & H0)|(v & first & e & Hf & H0 & Hip)]].
  - rewrite Hf. by exec.
  - rewrite Hf. exec. rewrite H0. exec. rewrite isinstance_Exception. by exec.
  - rewrite Hf. exec. rewrite H0. exec. rewrite Hip. exec.
    rewrite isinstance_Exception. by exec.
Qed.

Lemma create_ignores_unreadable_fixed_ips_witness :
  create_params (body_of {[ "port_id" := PStr "p1";
                            "fixed_ips" := PList [] ]})
  = Ret (PNone, PStr "p1", PNone)
  ∧ create_params (body_of {[ "port_id" := PStr "p1";
                              "fixed_ips" := PList [PStr "10.0.0.9"] ]})
    = Ret (PNone, PStr "p1", PNone).
Proof.
  split.
  - refine (create_ignores_unreadable_fixed_ips
              {[ "interface_attachment" :=
                   PDict {[ "port_id" := PStr "p1";
                            "fixed_ips" := PList [] ]} ]}
              {[ "port_id" := PStr "p1"; "fixed_ips" := PList [] ]} _ _);
      [reflexivity|].
    right. left. exists (PList []), (exc IndexError None).
    split; reflexivity.
  - refine (create_ignores_unreadable_fixed_ips
              {[ "interface_attachment" :=
                   PDict {[ "port_id" := PStr "p1";
                            "fixed_ips" := PList [PStr "10.0.0.9"] ]} ]}
              {[ "port_id" := PStr "p1";
                 "fixed_ips" := PList [PStr "10.0.0.9"] ]} _ _);
      [reflexivity|].
    right. right.
    exists (PList [PStr "10.0.0.9"]), (PStr "10.0.0.9"), (exc TypeError None).
    repeat split; reflexivity.
Defined.

(** X14: a body of the wrong shape is not answered with 400: when the
    call is authorized and [interface_attachment] is not a dictionary,
    [create] raises the AttributeError of [attachment.get]; when the body
    is truthy and not a dictionary, it raises the TypeError of the
    subscript.  Both leave the method before any compute call and are no
    [webob.exc] error. *)
Theorem create_wrong_shape_escapes :
  ∀ (S : Type) (backend : call -> S -> outcome pyval * S) (s0 s1 : S)
    (req : request) (server_id : string) (granted : pyval),
    backend (authorize (nova_context (environ req))) s0 = (Val granted, s1) →
    (∀ (body : gmap string pyval) (v : pyval),
       body !! "interface_attachment" = Some v →
       (∀ d, v ≠ PDict d) →
       run backend (create req server_id (PDict body)) s0 =
         Result (Exc (exc AttributeError (Some "get")))
           [ Called (authorize (nova_context (environ req))) ] s1)
    ∧ (∀ body : pyval,
         truthy body = true →
         (∀ d, body ≠ PDict d) →
         run backend (create req server_id body) s0 =
           Result (Exc (exc TypeError None))
             [ Called (authorize (nova_context (environ req))) ] s1)
    ∧ code AttributeError = None
    ∧ code TypeError = None.
Proof.
  intros S backend s0 s1 req server_id granted Hauth. repeat split.
  - intros body v Hb Hv.
    unfold create, create_params. exec. answer Hauth.
    rewrite (truthy_dict _ _ _ Hb). exec. answer Hb.
    destruct v as [| | | | |d]; exec; try done. by destruct (Hv d).
  - intros body Hbody Hv.
    unfold create, create_params. exec. answer Hauth.
    rewrite Hbody. exec.
    destruct body as [| | | | |d]; exec; try done. by destruct (Hv d).
Qed.

Lemma create_wrong_shape_escapes_witness :
  run fake
    (create req0 "srv-1"
       (PDict {[ "interface_attachment" := PStr "net-A" ]})) w0
  = Result (Exc (exc AttributeError (Some "get")))
      [ Called (authorize (PStr "admin")) ] w0
  ∧ run fake (create req0 "srv-1" (PList [PStr "net-A"])) w0
    = Result (Exc (exc TypeError None))
        [ Called (authorize (PStr "admin")) ] w0.
Proof.
  pose proof (create_wrong_shape_escapes world fake w0 w0 req0 "srv-1" PNone
                eq_refl) as (Hatt & Hbody & _).
  split.
  - apply (Hatt {[ "interface_attachment" := PStr "net-A" ]} (PStr "net-A"));
      [reflexivity | intros d; discriminate].
  - apply (Hbody (PList [PStr "net-A"]));
      [reflexivity | intros d; discriminate].
Defined.

(** ** create: the mappings that work, on the example backend *)

Lemma create_maps_instance_not_found_witness :
  run fake
    (create req0 "srv-9" (body_of {[ "net_id" := PStr "net-A" ]})) w0
  = Result (Exc (exc HTTPNotFound (Some "Instance not found")))
      [ Called (authorize (PStr "admin"));
        Called (compute_api_get (PStr "admin") "srv-9") ]
      w0.
Proof.
  assert (create_params (body_of {[ "net_id" := PStr "net-A" ]})
          = Ret (PStr "net-A", PNone, PNone)) as Hparams by reflexivity.
  exact (create_maps_instance_not_found world fake w0 w0 w0 req0 "srv-9"
           _ _ _ _ PNone "Instance not found"
           eq_refl Hparams eq_refl eq_refl eq_refl).
Defined.

Lemma create_maps_attach_failure_witness :
  run fake (create req0 "srv-1" PNone)
    (with_attach (Exc (exc InterfaceAttachFailed (Some "no free slot"))) w0)
  = Result (Exc (exc HTTPInternalServerError (Some "no free slot")))
      [ Called (authorize (PStr "admin"));
        Called (compute_api_get (PStr "admin") "srv-1");
        Logged (LOG_audit "Attach interface to %s" [] srv1);
        Called (compute_api_attach_interface (PStr "admin") srv1
                  PNone PNone PNone);
        Logged (LOG_exception
                  (exc InterfaceAttachFailed (Some "no free slot"))) ]
      (with_attach (Exc (exc InterfaceAttachFailed (Some "no free slot"))) w0).
Proof.
  pose (w := with_attach
               (Exc (exc InterfaceAttachFailed (Some "no free slot"))) w0).
  exact (create_maps_attach_failure world fake w w w w req0 "srv-1"
           PNone PNone PNone PNone PNone srv1 "no free slot"
           eq_refl eq_refl eq_refl eq_refl eq_refl eq_refl).
Defined.

(** ** create, after the attach *)

(** X17: a successful [create], end to end: after the attach it
    authorizes and looks the instance up a second time, fetches the new
    port from the network service, and answers with the view of that
    record: seven steps, and nothing of the response is taken from what
    [attach_interface] returned except the port's id. *)
Theorem create_answers_with_refetched_port :
  ∀ (S : Type) (backend : call -> S -> outcome pyval * S)
    (s0 s1 s2 s3 s4 s5 s6 : S)
    (req : request) (server_id : string)
    (body network_id port_id req_ip : pyval)
    (granted instance attached new_id granted' instance' port_info : pyval)
    (net i mac st : pyval) (port : gmap string pyval),
    backend (authorize (nova_context (environ req))) s0 = (Val granted, s1) →
    create_params body = Ret (network_id, port_id, req_ip) →
    conflicting network_id port_id req_ip = false →
    backend (compute_api_get (nova_context (environ req)) server_id) s1
      = (Val instance, s2) →
    backend (compute_api_attach_interface (nova_context (environ req))
               instance network_id port_id req_ip) s2
      = (Val attached, s3) →
    getitem attached "id" = Val new_id →
    backend (authorize (nova_context (environ req))) s3 = (Val granted', s4) →
    backend (compute_api_get (nova_context (environ req)) server_id) s4
      = (Val instance', s5) →
    backend (network_api_show_port (nova_context (environ req)) new_id) s5
      = (Val port_info, s6) →
    getitem port_info "port" = Val (PDict port) →
    port !! "device_id" = Some (PStr server_id) →
    port !! "network_id" = Some net →
    port !! "id" = Some i →
    port !! "mac_address" = Some mac →
    port !! "status" = Some st →
    run backend (create req server_id body) s0 =
      Result
        (Val (Dict {[ "interface_attachment" :=
           PDict {[ "net_id" := net;
                    "port_id" := i;
                    "mac_addr" := mac;
                    "port_state" := st;
                    "fixed_ips" := default PNone (port !! "fixed_ips") ]} ]}))
        [ Called (authorize (nova_context (environ req)));
          Called (compute_api_get (nova_context (environ req)) server_id);
          Logged (LOG_audit "Attach interface to %s" [] instance);
          Called (compute_api_attach_interface (nova_context (environ req))
                    instance network_id port_id req_ip);
          Called (authorize (nova_context (environ req)));
          Called (compute_api_get (nova_context (environ req)) server_id);
          Called (network_api_show_port (nova_context (environ req)) new_id) ]
        s6.
Proof.
  intros S backend s0 s1 s2 s3 s4 s5 s6 req server_id body network_id port_id
    req_ip granted instance attached new_id granted' instance' port_info
    net i mac st port
    Hauth Hparams Hc Hget Hatt Hid Hauth' Hget' Hport Hp Hdev
    Hnet Hi Hmac Hst.
  apply orb_false_elim in Hc as [Hv1 Hv2].
  unfold create. exec. answer Hauth. rewrite Hparams. exec.
  rewrite Hv1, Hv2. exec. answer Hget. answer Hatt. answer Hid.
  unfold show. exec. answer Hauth'. answer Hget'. answer Hport.
  answer Hp. answer Hdev.
  rewrite (proj2 (ne_str_false _ _) eq_refl). exec.
  rewrite (translate_port port i net mac st) by done. exec.
  done.
Qed.

Lemma create_answers_with_refetched_port_witness :
  run fake
    (create req0 "srv-1" (body_of {[ "net_id" := PStr "net-A" ]})) w0
  = Result
      (Val (Dict {[ "interface_attachment" :=
         PDict {[ "net_id" := PStr "net-A";
                  "port_id" := PStr "p1";
                  "mac_addr" := PStr "fa:16:3e:00:00:01";
                  "port_state" := PStr "ACTIVE";
                  "fixed_ips" := default PNone (port_p1 !! "fixed_ips") ]} ]}))
      [ Called (authorize (PStr "admin"));
        Called (compute_api_get (PStr "admin") "srv-1");
        Logged (LOG_audit "Attach interface to %s" [] srv1);
        Called (compute_api_attach_interface (PStr "admin") srv1
                  (PStr "net-A") PNone PNone);
        Called (authorize (PStr "admin"));
        Called (compute_api_get (PStr "admin") "srv-1");
        Called (network_api_show_port (PStr "admin") (PStr "p1")) ]
      w1.
Proof.
  apply (create_answers_with_refetched_port world fake w0 w0 w0 w1 w1 w1 w1
           req0 "srv-1" (body_of {[ "net_id" := PStr "net-A" ]})
           (PStr "net-A") PNone PNone PNone srv1 (PDict port_p1) (PStr "p1")
           PNone srv1 (PDict {[ "port" := PDict port_p1 ]})
           (PStr "net-A") (PStr "p1") (PStr "fa:16:3e:00:00:01")
           (PStr "ACTIVE") port_p1);
    reflexivity.
Defined.

(** X18: [create] can answer 404 for an interface it has attached: when
    the attach succeeds but the port fetched afterwards does not carry
    [server_id] as its [device_id], [create] raises HTTPNotFound, with
    the attach already done. *)
Theorem create_not_found_after_attach :
  ∀ (S : Type) (backend : call -> S -> outcome pyval * S)
    (s0 s1 s2 s3 s4 s5 s6 : S)
    (req : request) (server_id : string)
    (body network_id port_id req_ip : pyval)
    (granted instance attached new_id granted' instance' : pyval)
    (port_info port device_id : pyval),
    backend (authorize (nova_context (environ req))) s0 = (Val granted, s1) →
    create_params body = Ret (network_id, port_id, req_ip) →
    conflicting network_id port_id req_ip = false →
    backend (compute_api_get (nova_context (environ req)) server_id) s1
      = (Val instance, s2) →
    backend (compute_api_attach_interface (nova_context (environ req))
               instance network_id port_id req_ip) s2
      = (Val attached, s3) →
    getitem attached "id" = Val new_id →
    backend (authorize (nova_context (environ req))) s3 = (Val granted', s4) →
    backend (compute_api_get (nova_context (environ req)) server_id) s4
      = (Val instance', s5) →
    backend (network_api_show_port (nova_context (environ req)) new_id) s5
      = (Val port_info, s6) →
    getitem port_info "port" = Val port →
    getitem port "device_id" = Val device_id →
    ne_str device_id server_id = true →
    run backend (create req server_id body) s0 =
      Result (Exc (exc HTTPNotFound None))
        [ Called (authorize (nova_context (environ req)));
          Called (compute_api_get (nova_context (environ req)) server_id);
          Logged (LOG_audit "Attach interface to %s" [] instance);
          Called (compute_api_attach_interface (nova_context (environ req))
                    instance network_id port_id req_ip);
          Called (authorize (nova_context (environ req)));
          Called (compute_api_get (nova_context (environ req)) server_id);
          Called (network_api_show_port (nova_context (environ req)) new_id) ]
        s6.
Proof.
  intros S backend s0 s1 s2 s3 s4 s5 s6 req server_id body network_id port_id
    req_ip granted instance attached new_id granted' instance' port_info
    port device_id
    Hauth Hparams Hc Hget Hatt Hid Hauth' Hget' Hport Hp Hdev Hne.
  apply orb_false_elim in Hc as [Hv1 Hv2].
  unfold create. exec. answer Hauth. rewrite Hparams. exec.
  rewrite Hv1, Hv2. exec. answer Hget. answer Hatt. answer Hid.
  unfold show. exec. answer Hauth'. answer Hget'. answer Hport.
  answer Hp. answer Hdev. by answer Hne.
Qed.

Lemma create_not_found_after_attach_witness :
  run fake (create req0 "srv-1" PNone) w_foreign
  = Result (Exc (exc HTTPNotFound None))
      [ Called (authorize (PStr "admin"));
        Called (compute_api_get (PStr "admin") "srv-1");
        Logged (LOG_audit "Attach interface to %s" [] srv1);
        Called (compute_api_attach_interface (PStr "admin") srv1
                  PNone PNone PNone);
        Called (authorize (PStr "admin"));
        Called (compute_api_get (PStr "admin") "srv-1");
        Called (network_api_show_port (PStr "admin") (PStr "q7")) ]
      w_foreign.
Proof.
  apply (create_not_found_after_attach world fake
           w_foreign w_foreign w_foreign w_foreign w_foreign w_foreign
           w_foreign req0 "srv-1" PNone PNone PNone PNone
           PNone srv1 (PDict port_q7) (PStr "q7") PNone srv1
           (PDict {[ "port" := PDict port_q7 ]}) (PDict port_q7)
           (PStr "srv-2"));
    reflexivity.
Defined.

(** X19: when [attach_interface] returns something without an [id],
    [create] raises the error of the lookup [port_info['id']] after the
    attach: the interface is attached and the caller gets an unmapped
    error, with no second authorization and no fetch. *)
Theorem create_attach_result_without_id :
  ∀ (S : Type) (backend : call -> S -> outcome pyval * S) (s0 s1 s2 s3 : S)
    (req : request) (server_id : string)
    (body network_id port_id req_ip granted instance attached : pyval)
    (e : exn),
    backend (authorize (nova_context (environ req))) s0 = (Val granted, s1) →
    create_params body = Ret (network_id, port_id, req_ip) →
    conflicting network_id port_id req_ip = false →
    backend (compute_api_get (nova_context (environ req)) server_id) s1
      = (Val instance, s2) →
    backend (compute_api_attach_interface (nova_context (environ req))
               instance network_id port_id req_ip) s2
      = (Val attached, s3) →
    getitem attached "id" = Exc e →
    run backend (create req server_id body) s0 =
      Result (Exc e)
        [ Called (authorize (nova_context (environ req)));
          Called (compute_api_get (nova_context (environ req)) server_id);
          Logged (LOG_audit "Attach interface to %s" [] instance);
          Called (compute_api_attach_interface (nova_context (environ req))
                    instance network_id port_id req_ip) ]
        s3.
Proof.
  intros S backend s0 s1 s2 s3 req server_id body network_id port_id req_ip
    granted instance attached e Hauth Hparams Hc Hget Hatt Hid.
  apply orb_false_elim in Hc as [Hv1 Hv2].
  unfold create. exec. answer Hauth. rewrite Hparams. exec.
  rewrite Hv1, Hv2. exec. answer Hget. answer Hatt. by answer Hid.
Qed.

Lemma create_attach_result_without_id_witness :
  run scripted (create req0 "srv-1" PNone)
    [ Val PNone; Val srv1; Val PNone ]
  = Result (Exc (exc TypeError None))
      [ Called (authorize (PStr "admin"));
        Called (compute_api_get (PStr "admin") "srv-1");
        Logged (LOG_audit "Attach interface to %s" [] srv1);
        Called (compute_api_attach_interface (PStr "admin") srv1
                  PNone PNone PNone) ]
      [].
Proof.
  apply (create_attach_result_without_id _ scripted
           [ Val PNone; Val srv1; Val PNone ] [ Val srv1; Val PNone ]
           [ Val PNone ] []
           req0 "srv-1" PNone PNone PNone PNone PNone srv1 PNone
           (exc TypeError None));
    reflexivity.
Defined.

(** ** delete, off the main path *)

(** X20: [delete] maps two exceptions of [detach_interface] and one of
    [compute_api.get]; any other exception of either call leaves the
    method as it is, in particular an InstanceNotFound raised by
    [detach_interface] is not turned into a 404. *)
Theorem delete_passes_other_exceptions_on :
  ∀ (S : Type) (backend : call -> S -> outcome pyval * S) (s0 s1 s2 s3 : S)
    (req : request) (server_id : string) (id granted : pyval) (e : exn),
    backend (authorize (nova_context (environ req))) s0 = (Val granted, s1) →
    (backend (compute_api_get (nova_context (environ req)) server_id) s1
       = (Exc e, s2) →
     isinstance e InstanceNotFound = false →
     run backend (delete req server_id id) s0 =
       Result (Exc e)
         [ Called (authorize (nova_context (environ req)));
           Called (compute_api_get (nova_context (environ req)) server_id) ]
         s2)
    ∧ (∀ instance : pyval,
         backend (compute_api_get (nova_context (environ req)) server_id) s1
           = (Val instance, s2) →
         backend (compute_api_detach_interface (nova_context (environ req))
                    instance id) s2
           = (Exc e, s3) →
         isinstance e PortNotFound = false →
         isinstance e NotImplementedError = false →
         run backend (delete req server_id id) s0 =
           Result (Exc e)
             [ Called (authorize (nova_context (environ req)));
               Called (compute_api_get (nova_context (environ req)) server_id);
               Logged (LOG_audit "Detach interface %s" [id] instance);
               Called (compute_api_detach_interface
                         (nova_context (environ req)) instance id) ]
             s3).
Proof.
  intros S backend s0 s1 s2 s3 req server_id id granted e Hauth. split.
  - intros Hget He.
    unfold delete. exec. answer Hauth. answer Hget. rewrite He. by exec.
  - intros instance Hget Hdet He1 He2.
    unfold delete. exec. answer Hauth. answer Hget. answer Hdet.
    rewrite He1, He2. by exec.
Qed.

Lemma delete_passes_other_exceptions_on_witness :
  run fake (delete req0 "srv-1" (PStr "p1"))
    (with_detach (Some (exc InstanceNotFound (Some "gone"))) w1)
  = Result (Exc (exc InstanceNotFound (Some "gone")))
      [ Called (authorize (PStr "admin"));
        Called (compute_api_get (PStr "admin") "srv-1");
        Logged (LOG_audit "Detach interface %s" [PStr "p1"] srv1);
        Called (compute_api_detach_interface (PStr "admin") srv1
                  (PStr "p1")) ]
      (with_detach (Some (exc InstanceNotFound (Some "gone"))) w1).
Proof.
  pose (w := with_detach (Some (exc InstanceNotFound (Some "gone"))) w1).
  apply (proj2 (delete_passes_other_exceptions_on world fake w w w w req0
                  "srv-1" (PStr "p1") PNone
                  (exc InstanceNotFound (Some "gone")) eq_refl)
           srv1);
    reflexivity.
Defined.

(** ** A refused caller *)

Lemma refused_call_stops_witness :
  run fake (index req0 "srv-1") w_refused
  = Result (Exc (exc Forbidden (Some "Policy doesn't allow this")))
      [ Called (authorize (PStr "admin")) ] w_refused
  ∧ run fake (delete req0 "srv-1" (PStr "p1")) w_refused
    = Result (Exc (exc Forbidden (Some "Policy doesn't allow this")))
        [ Called (authorize (PStr "admin")) ] w_refused.
Proof.
  pose proof (refused_call_stops world fake w_refused w_refused req0 "srv-1"
                (PStr "p1") PNone
                (exc Forbidden (Some "Policy doesn't allow this")) eq_refl)
    as (Hindex & _ & _ & Hdelete).
  split; [exact Hindex | exact Hdelete].
Defined.
